(** * The auth gate of dev-bd: a shallow embedding

    Sources embedded here:
    - [middlewares/auth.js]: [protect] and [authorize];
    - the course controller: [getCourse], [createCourse], [updateCourse],
      [deleteCourse];
    - the auth controller: [authRegister], [authLogin], [authLogout],
      [authForgotPassword], [authResetPassword], [authUpdateInfo],
      [authUpdatePassword], [authGetMe], [sendTokenResponse].

    A middleware of the source receives [(req, res, next)], may mutate [req]
    and [res], may await the database, and finishes by calling [next()],
    [next(err)] or by sending the response.  Here a middleware is a
    computation in a state-and-exception monad over the triple
    (request, response, database); what it hands to Express is its
    result, a [Signal]. *)

From Stdlib Require Import ZArith String Ascii Lia.
From stdpp Require Import base option list gmap strings pretty.

Local Open Scope Z_scope.
Set Warnings "-register-all".

(** ** JavaScript values and string primitives *)

Inductive JsVal :=
| JUndefined
| JNull
| JBool (b : bool)
| JNum (n : Z)
| JStr (s : string)
| JObj (fields : list (string * JsVal)).

Module Js.

(** [s.startsWith(p)] *)
Definition startsWith (s p : string) : bool := String.prefix p s.

(** [s.split(sep)] for a one-character separator: the pieces between
    the occurrences of [sep], empty pieces included; never empty. *)
Fixpoint split (sep : ascii) (s : string) : list string :=
  match s with
  | EmptyString => [EmptyString]
  | String c rest =>
      if Ascii.eqb c sep then EmptyString :: split sep rest
      else match split sep rest with
           | w :: ws => String c w :: ws
           | [] => [String c EmptyString]
           end
  end.

(** Truthiness of a string: only the empty string is falsy. *)
Definition truthy (s : string) : bool := negb (String.eqb s "").

(** Truthiness of a value that is a string or [undefined]. *)
Definition truthy_opt (v : option string) : bool :=
  match v with
  | Some s => truthy s
  | None => false
  end.

(** A string-or-undefined as a value. *)
Definition of_opt (v : option string) : JsVal :=
  match v with
  | Some s => JStr s
  | None => JUndefined
  end.

(** A string-or-undefined inside a template literal. *)
Definition template (v : option string) : string := default "undefined" v.

(** [xs.includes(x)] on an array of strings. *)
Definition includes (xs : list string) (x : string) : bool :=
  existsb (String.eqb x) xs.

End Js.

(** ** Exceptions and the middleware monad *)

Inductive Exn :=
| TypeError (msg : string)
| JsonWebTokenError (msg : string)
| TokenExpiredError (expiredAt : Z)
| StorageError (msg : string).

Inductive Exc (A : Type) :=
| Value (a : A)
| Throw (e : Exn).
Arguments Value {A} a.
Arguments Throw {A} e.

(** A computation reads and writes a state [S] and either returns or
    throws; writes made before a throw stay, as in JavaScript. *)
Definition Run (S A : Type) : Type := S -> Exc A * S.

#[global] Instance Run_ret {S} : MRet (Run S) :=
  fun A a s => (Value a, s).

#[global] Instance Run_bind {S} : MBind (Run S) :=
  fun A B k m s =>
    match m s with
    | (Value a, s') => k a s'
    | (Throw e, s') => (Throw e, s')
    end.

Definition throw {S A} (e : Exn) : Run S A := fun s => (Throw e, s).

Definition try_catch {S A} (body : Run S A) (handler : Exn -> Run S A) : Run S A :=
  fun s =>
    match body s with
    | (Value a, s') => (Value a, s')
    | (Throw e, s') => handler e s'
    end.

Definition get {S} : Run S S := fun s => (Value s, s).
Definition modify {S} (f : S -> S) : Run S unit := fun s => (Value tt, f s).

(** A library call: it returns or throws and leaves the state alone. *)
Definition lift_exc {S A} (r : Exc A) : Run S A := fun s => (r, s).

(** ** Data model *)

(** Mongo object identifiers, by their hexadecimal text;
    [a.equals(b)] compares the texts. *)
Definition ObjectId := string.
Definition equals (a b : ObjectId) : bool := String.eqb a b.

Record User := mkUser {
  _id : ObjectId;
  role : string;
  name : string;
  email : string
}.

(** A stored bootcamp or course.  The handlers read only its owner
    ([doc.user]); [doc_json] is what [res.json] serialises. *)
Record Document := mkDocument {
  doc_id : ObjectId;
  doc_user : ObjectId;
  doc_json : JsVal
}.

(** Modelled from the spec: [utils/errorResponse] is not among the sources;
    the spec's structured error is a message with the HTTP status it maps
    to, built by [new ErrorResponse(message, statusCode)]. *)
Record ErrorResponse := mkErrorResponse {
  message : string;
  statusCode : Z
}.

Record Headers := mkHeaders {
  authorization : option string
}.

Record Request := mkRequest {
  headers : Headers;
  cookies : gmap string string;
  params : gmap string string;
  body : gmap string JsVal;
  user : option User
}.

Record CookieOptions := mkCookieOptions {
  expires : Z;
  httpOnly : bool;
  secure : bool
}.

Record Cookie := mkCookie {
  cookie_name : string;
  cookie_value : string;
  cookie_options : CookieOptions
}.

Record Response := mkResponse {
  res_status : Z;
  res_cookies : list Cookie;
  res_json : option JsVal
}.

(** What a middleware hands back to Express. *)
Inductive Signal :=
| Next                          (* next() *)
| NextErr (err : ErrorResponse) (* next(new ErrorResponse(..)) *)
| Sent.                         (* the response was sent *)

(** The decoded payload of a session token. *)
Record Payload := mkPayload {
  id : ObjectId;
  iat : Z;
  exp : Z
}.

(** [process.env], as far as the gate reads it.  [JWT_COOKIE_EXPIRES] is
    the number the environment string denotes (the source multiplies it). *)
Record ProcessEnv := mkProcessEnv {
  JWT_SECRET : string;
  JWT_COOKIE_EXPIRES : Z;
  NODE_ENV : string
}.

(** The [jsonwebtoken] package, an external library: signing a payload
    with a secret, and verifying a token with a secret at a clock reading
    (milliseconds, as [Date.now()]).  [jwt_verify] throws on a malformed,
    wrongly signed or expired token. *)
Record Jsonwebtoken := mkJsonwebtoken {
  jwt_sign : Payload -> string -> string;
  jwt_verify : Z -> string -> string -> Exc Payload
}.

(** The mongoose models, an external store of type [DB].  Reads leave the
    store as it is; writes return the new store.  Every call may throw. *)
Record Models (DB : Type) := mkModels {
  User_findById : DB -> ObjectId -> Exc (option User);
  Bootcamp_findById : DB -> option string -> Exc (option Document);
  Course_findById : DB -> option string -> Exc (option Document);
  Course_create : DB -> gmap string JsVal -> Exc Document * DB;
  Course_findByIdAndUpdate :
    DB -> option string -> gmap string JsVal -> Exc (option Document) * DB;
  Course_remove : DB -> Document -> Exc unit * DB
}.
Arguments User_findById {DB} _ _ _.
Arguments Bootcamp_findById {DB} _ _ _.
Arguments Course_findById {DB} _ _ _.
Arguments Course_create {DB} _ _ _.
Arguments Course_findByIdAndUpdate {DB} _ _ _ _.
Arguments Course_remove {DB} _ _ _.

(** The state one request runs in. *)
Record State (DB : Type) := mkState {
  req : Request;
  res : Response;
  db : DB
}.
Arguments mkState {DB} _ _ _.
Arguments req {DB} _.
Arguments res {DB} _.
Arguments db {DB} _.

Definition set_user (u : User) (r : Request) : Request :=
  mkRequest (headers r) (cookies r) (params r) (body r) (Some u).

Definition set_body (k : string) (v : JsVal) (r : Request) : Request :=
  mkRequest (headers r) (cookies r) (params r) (<[k := v]> (body r)) (user r).

Definition on_req {DB} (f : Request -> Request) (s : State DB) : State DB :=
  mkState (f (req s)) (res s) (db s).

Definition on_res {DB} (f : Response -> Response) (s : State DB) : State DB :=
  mkState (req s) (f (res s)) (db s).

(** A read of the store. *)
Definition db_read {DB A} (f : DB -> Exc A) : Run (State DB) A :=
  fun s => (f (db s), s).

(** A write to the store. *)
Definition db_write {DB A} (f : DB -> Exc A * DB) : Run (State DB) A :=
  fun s => let '(r, d) := f (db s) in (r, mkState (req s) (res s) d).

(** ** middlewares/auth.js *)

Section Auth.
Context {DB : Type}.
Variable env : ProcessEnv.
Variable jwt : Jsonwebtoken.
Variable models : Models DB.
(** The clock while the request is handled, in milliseconds. *)
Variable now : Z.

Definition UNAUTHORIZED : string := "Not authorized to access this resource.".

(** Lines 18-25 of [protect]: the token, or [undefined]. *)
Definition bearer_token (r : Request) : option string :=
  match authorization (headers r) with
  | Some a =>
      if Js.truthy a && Js.startsWith a "Bearer"
      then Js.split " " a !! 1%nat
      else None
  | None => None
  end.

(** The function that [protect] wraps in [asyncHandler].  [asyncHandler]
    is not among the sources; it only receives what this function throws,
    and this function never throws (see [protect_never_throws]). *)
Definition protect : Run (State DB) Signal :=
  s ← get;
  match bearer_token (req s) with
  | None => mret (NextErr (mkErrorResponse UNAUTHORIZED 401))
  | Some token =>
      if negb (Js.truthy token)
      then mret (NextErr (mkErrorResponse UNAUTHORIZED 401))
      else
        try_catch
          (decoded ← lift_exc (jwt_verify jwt now token (JWT_SECRET env));
           found ← db_read (fun d => User_findById models d (id decoded));
           match found with
           | None =>
               mret (NextErr (mkErrorResponse
                                "Token is not associated with a user anymore." 401))
           | Some u =>
               _ ← modify (on_req (set_user u));
               mret Next
           end)
          (fun e => mret (NextErr (mkErrorResponse UNAUTHORIZED 401)))
  end.

(** [authorize(...roles)]: a plain Express middleware, not wrapped.
    Reading [req.user.role] when [req.user] is [undefined] throws. *)
Definition authorize (roles : list string) : Run (State DB) Signal :=
  s ← get;
  match user (req s) with
  | None => throw (TypeError "Cannot read property 'role' of undefined")
  | Some u =>
      if negb (Js.includes roles (role u))
      then mret (NextErr (mkErrorResponse
                            "Certain permission is not met to access this resource."
                            403))
      else mret Next
  end.

(** ** The course controller *)

Definition status (c : Z) (r : Response) : Response :=
  mkResponse c (res_cookies r) (res_json r).

Definition cookie (n v : string) (o : CookieOptions) (r : Response) : Response :=
  mkResponse (res_status r) (res_cookies r ++ [mkCookie n v o]) (res_json r).

Definition json (v : JsVal) (r : Response) : Response :=
  mkResponse (res_status r) (res_cookies r) (Some v).

(** [res.status(c).json(v)], which sends the response. *)
Definition respond (c : Z) (v : JsVal) : Run (State DB) Signal :=
  _ ← modify (on_res (fun r => json v (status c r)));
  mret Sent.

(** [const { _id, role } = req.user], which throws without [req.user]. *)
Definition identity : Run (State DB) User :=
  s ← get;
  match user (req s) with
  | None => throw (TypeError "Cannot destructure property '_id' of 'req.user'")
  | Some u => mret u
  end.

(** The functions below are the ones the source wraps in [asyncHandler]. *)

Definition createCourse : Run (State DB) Signal :=
  u ← identity;
  s ← get;
  let bootcampID := params (req s) !! "bootcampID" in
  _ ← modify (on_req (set_body "bootcamp" (Js.of_opt bootcampID)));
  _ ← modify (on_req (set_body "user" (JStr (_id u))));
  bootcamp ← db_read (fun d => Bootcamp_findById models d bootcampID);
  match bootcamp with
  | None =>
      mret (NextErr (mkErrorResponse
        ("Bootcamp with ID " +:+ Js.template bootcampID +:+ " is not found.") 404))
  | Some b =>
      if negb (equals (doc_user b) (_id u)) && negb (String.eqb (role u) "admin")
      then
        mret (NextErr (mkErrorResponse
          ("Permission denied to add a course to " +:+ Js.template bootcampID +:+ ".")
          403))
      else
        s' ← get;
        course ← db_write (fun d => Course_create models d (body (req s')));
        respond 201 (JObj [("success", JBool true); ("data", doc_json course)])
  end.

Definition updateCourse : Run (State DB) Signal :=
  u ← identity;
  s ← get;
  let cid := params (req s) !! "id" in
  course ← db_read (fun d => Course_findById models d cid);
  match course with
  | None =>
      mret (NextErr (mkErrorResponse
        ("Course with ID " +:+ Js.template cid +:+ " is not found.") 404))
  | Some c =>
      if negb (equals (doc_user c) (_id u)) && negb (String.eqb (role u) "admin")
      then
        mret (NextErr (mkErrorResponse
          ("Permission denied to update " +:+ Js.template cid +:+ ".") 403))
      else
        updated ← db_write (fun d =>
                     Course_findByIdAndUpdate models d cid (body (req s)));
        respond 200 (JObj [("success", JBool true);
                           ("data", from_option doc_json JNull updated)])
  end.

Definition deleteCourse : Run (State DB) Signal :=
  u ← identity;
  s ← get;
  let cid := params (req s) !! "id" in
  course ← db_read (fun d => Course_findById models d cid);
  match course with
  | None =>
      mret (NextErr (mkErrorResponse
        ("Course with ID " +:+ Js.template cid +:+ " is not found.") 404))
  | Some c =>
      if negb (equals (doc_user c) (_id u)) && negb (String.eqb (role u) "admin")
      then
        mret (NextErr (mkErrorResponse
          ("Permission denied to delete " +:+ Js.template cid +:+ ".") 403))
      else
        _ ← db_write (fun d => Course_remove models d c);
        respond 200 (JObj [("success", JBool true); ("data", JObj [])])
  end.

(** ** The auth controller: issuing *)

(** Modelled from the spec: the payload [user.getSignedToken] signs (the
    User model is not among the sources).  Spec 3: the token encodes the
    subject identifier, the issued-at time and the expiry; spec 4.1 and 6:
    the expiry is derived from the one configured lifetime.  Issued-at and
    expiry are on the scale of the clock, milliseconds. *)
Definition token_payload (u : User) : Payload :=
  mkPayload (_id u) now (now + JWT_COOKIE_EXPIRES env * 24 * 3600 * 1000).

(** Modelled from the spec: [user.getSignedToken] (the User model) is not
    among the sources.  Spec 3 and 4.1: the token is a signed string
    encoding the subject identifier, the issued-at time and an expiry
    derived from the fixed configured lifetime, signed with the
    configured secret key. *)
Definition getSignedToken (u : User) : string :=
  jwt_sign jwt (token_payload u) (JWT_SECRET env).

(** [sendTokenResponse(user, statusCode, res)]: the response it returns. *)
Definition sendTokenResponse (u : User) (code : Z) (r : Response) : Response :=
  let token := getSignedToken u in
  let option0 :=
    mkCookieOptions (now + JWT_COOKIE_EXPIRES env * 24 * 3600 * 1000) true false in
  let option1 :=
    if String.eqb (NODE_ENV env) "Production"
    then mkCookieOptions (expires option0) (httpOnly option0) true
    else option0 in
  json (JObj [("success", JBool true); ("token", JStr token)])
       (cookie "token" token option1 (status code r)).

End Auth.

(** ** A small deployment for the examples

    A stand-in for [jsonwebtoken] (a token is the payload's fields and the
    secret, joined by dots), and a stand-in for the mongoose models over
    maps, whose calls all throw while the store is offline. *)

Module Demo.

Definition digit (c : ascii) : option Z :=
  let n := Z.of_nat (nat_of_ascii c) in
  if (48 <=? n) && (n <=? 57) then Some (n - 48) else None.

Fixpoint parse_go (acc : Z) (s : string) : option Z :=
  match s with
  | EmptyString => Some acc
  | String c rest =>
      match digit c with
      | Some d => parse_go (10 * acc + d) rest
      | None => None
      end
  end.

Definition parse (s : string) : option Z :=
  if String.eqb s "" then None else parse_go 0 s.

Definition sign (p : Payload) (secret : string) : string :=
  id p +:+ "." +:+ pretty (iat p) +:+ "." +:+ pretty (exp p) +:+ "." +:+ secret.

Definition verify (now : Z) (t secret : string) : Exc Payload :=
  match Js.split "." t with
  | [i; a; e; g] =>
      if negb (String.eqb g secret)
      then Throw (JsonWebTokenError "invalid signature")
      else match parse a, parse e with
           | Some a', Some e' =>
               if e' <=? now then Throw (TokenExpiredError e')
               else Value (mkPayload i a' e')
           | _, _ => Throw (JsonWebTokenError "jwt malformed")
           end
  | _ => Throw (JsonWebTokenError "jwt malformed")
  end.

Definition jwt : Jsonwebtoken := mkJsonwebtoken sign verify.

Record Store := mkStore {
  users : gmap string User;
  bootcamps : gmap string Document;
  courses : gmap string Document;
  online : bool
}.

Definition offline {A} : Exc A := Throw (StorageError "connection lost").

Definition read {A} (d : Store) (a : A) : Exc A :=
  if online d then Value a else offline.

Definition with_courses (d : Store) (c : gmap string Document) : Store :=
  mkStore (users d) (bootcamps d) c (online d).

Definition owner_of (b : gmap string JsVal) : ObjectId :=
  match b !! "user" with
  | Some (JStr o) => o
  | _ => ""
  end.

Definition models : Models Store :=
  mkModels Store
    (fun d i => read d (users d !! i))
    (fun d i => read d (i ≫= fun k => bootcamps d !! k))
    (fun d i => read d (i ≫= fun k => courses d !! k))
    (fun d b =>
       if online d
       then let c := mkDocument "c-new" (owner_of b) (JObj (map_to_list b)) in
            (Value c, with_courses d (<["c-new" := c]> (courses d)))
       else (offline, d))
    (fun d i b =>
       if online d
       then match i ≫= fun k => courses d !! k with
            | Some c =>
                let c' := mkDocument (doc_id c) (doc_user c) (JObj (map_to_list b)) in
                (Value (Some c'), with_courses d (<[doc_id c := c']> (courses d)))
            | None => (Value None, d)
            end
       else (offline, d))
    (fun d c =>
       if online d
       then (Value tt, with_courses d (delete (doc_id c) (courses d)))
       else (offline, d)).

Definition env : ProcessEnv := mkProcessEnv "s3cret" 30 "development".

Definition alice : User := mkUser "u1" "publisher" "Alice" "alice@example.com".
Definition bob : User := mkUser "u2" "user" "Bob" "bob@example.com".
Definition root : User := mkUser "u3" "admin" "Root" "root@example.com".

Definition camp : Document := mkDocument "b1" "u1" (JObj [("name", JStr "Devworks")]).
Definition course : Document := mkDocument "c1" "u1" (JObj [("title", JStr "Rocq")]).

Definition store : Store :=
  mkStore (<["u1" := alice]> (<["u2" := bob]> (<["u3" := root]> ∅)))
          (<["b1" := camp]> ∅)
          (<["c1" := course]> ∅)
          true.

Definition store_offline : Store :=
  mkStore (users store) (bootcamps store) (courses store) false.

Definition blank : Response := mkResponse 200 [] None.

(** A request with the given [Authorization] header and nothing else. *)
Definition request (a : option string) : Request :=
  mkRequest (mkHeaders a) ∅ ∅ ∅ None.

Definition start (r : Request) (d : Store) : State Store := mkState r blank d.

Definition t0 : Z := 1700000000000.

(** A request presenting the token [t] the way clients do. *)
Definition bearer (t : string) : Request := request (Some ("Bearer " +:+ t)).

(** Alice's token, issued at [t0]. *)
Definition alice_token : string := getSignedToken env jwt t0 alice.

(** A well-signed, unexpired token of a user the store no longer has. *)
Definition ghost_payload : Payload := mkPayload "u9" 1690000000000 1800000000000.
Definition ghost_token : string := sign ghost_payload "s3cret".

End Demo.

(** ** How a credential fails

    The failure modes the gate's contract names, stated on the
    collaborators [protect] calls: no usable token in the header; a token
    the library refuses (bad signature, malformed, expired); a verified
    token whose subject the store no longer has. *)

Inductive FailureMode := NoToken | InvalidToken | SubjectMissing.

Section Failure.
Context {DB : Type}.
Variable env : ProcessEnv.
Variable jwt : Jsonwebtoken.
Variable models : Models DB.
Variable now : Z.

Inductive fails (s : State DB) : FailureMode -> Prop :=
| fails_no_token :
    Js.truthy_opt (bearer_token (req s)) = false ->
    fails s NoToken
| fails_invalid t e :
    bearer_token (req s) = Some t ->
    Js.truthy t = true ->
    jwt_verify jwt now t (JWT_SECRET env) = Throw e ->
    fails s InvalidToken
| fails_missing t d :
    bearer_token (req s) = Some t ->
    Js.truthy t = true ->
    jwt_verify jwt now t (JWT_SECRET env) = Value d ->
    User_findById models (db s) (id d) = Value None ->
    fails s SubjectMissing.

(** The message [protect] puts in the rejection of each mode. *)
Definition outward_message (m : FailureMode) : string :=
  match m with
  | SubjectMissing => "Token is not associated with a user anymore."
  | NoToken | InvalidToken => UNAUTHORIZED
  end.

End Failure.

(** A token as a client can put it after ["Bearer "]: not empty, no space. *)
Fixpoint no_space (s : string) : bool :=
  match s with
  | EmptyString => true
  | String c rest => negb (Ascii.eqb c " ") && no_space rest
  end.

Definition presentable (t : string) : bool := Js.truthy t && no_space t.

Definition set_cookies (c : gmap string string) (r : Request) : Request :=
  mkRequest (headers r) c (params r) (body r) (user r).

(** The header carries no bearer credential: it is absent, or it does not
    begin with ["Bearer"]. *)
Definition no_bearer_header (r : Request) : bool :=
  match authorization (headers r) with
  | None => true
  | Some a => negb (Js.startsWith a "Bearer")
  end.

(** ** The ownership gate of the course controller

    The three handlers that change a course, the stored resource each one
    compares the identity with, and what each one goes on to do once that
    comparison has let the request through. *)

Inductive Mutation := Create | Update | Delete.

Section Ownership.
Context {DB : Type}.
Variable models : Models DB.

Definition handler (k : Mutation) : Run (State DB) Signal :=
  match k with
  | Create => createCourse models
  | Update => updateCourse models
  | Delete => deleteCourse models
  end.

(** The lookup whose result the handler checks the owner of: the bootcamp
    for [createCourse], the course for the other two. *)
Definition guarded_resource (k : Mutation) (s : State DB) : Exc (option Document) :=
  match k with
  | Create => Bootcamp_findById models (db s) (params (req s) !! "bootcampID")
  | Update | Delete => Course_findById models (db s) (params (req s) !! "id")
  end.

(** The state when the check is made: [createCourse] has by then written
    the bootcamp and the identity into [req.body]. *)
Definition at_check (k : Mutation) (u : User) (s : State DB) : State DB :=
  match k with
  | Create =>
      on_req (set_body "user" (JStr (_id u)))
        (on_req (set_body "bootcamp" (Js.of_opt (params (req s) !! "bootcampID"))) s)
  | Update | Delete => s
  end.

(** The rest of each handler, after the check. *)
Definition mutation (k : Mutation) (doc : Document) : Run (State DB) Signal :=
  match k with
  | Create =>
      s ← get;
      course ← db_write (fun d => Course_create models d (body (req s)));
      respond 201 (JObj [("success", JBool true); ("data", doc_json course)])
  | Update =>
      s ← get;
      updated ← db_write (fun d =>
                   Course_findByIdAndUpdate models d (params (req s) !! "id")
                                            (body (req s)));
      respond 200 (JObj [("success", JBool true);
                         ("data", from_option doc_json JNull updated)])
  | Delete =>
      _ ← db_write (fun d => Course_remove models d doc);
      respond 200 (JObj [("success", JBool true); ("data", JObj [])])
  end.

(** The message of each handler's 403. *)
Definition denial (k : Mutation) (s : State DB) : string :=
  match k with
  | Create =>
      "Permission denied to add a course to "
        +:+ Js.template (params (req s) !! "bootcampID") +:+ "."
  | Update =>
      "Permission denied to update " +:+ Js.template (params (req s) !! "id") +:+ "."
  | Delete =>
      "Permission denied to delete " +:+ Js.template (params (req s) !! "id") +:+ "."
  end.

End Ownership.

(** ** Requests of the small deployment *)

Module Cases.

(** No [Authorization] header at all. *)
Definition anonymous : State Demo.Store :=
  Demo.start (Demo.request None) Demo.store.

(** Alice's fresh token, store online. *)
Definition alice_in : State Demo.Store :=
  Demo.start (Demo.bearer Demo.alice_token) Demo.store.

(** A valid token of a user that was deleted. *)
Definition ghost_in : State Demo.Store :=
  Demo.start (Demo.bearer Demo.ghost_token) Demo.store.

(** Alice's fresh token while the store is unreachable. *)
Definition alice_offline : State Demo.Store :=
  Demo.start (Demo.bearer Demo.alice_token) Demo.store_offline.

(** The token only in the cookie. *)
Definition token_cookie : gmap string string := {["token" := Demo.alice_token]}.

(** A request past [protect], on a route with the given parameters. *)
Definition signed_in (u : User) (ps : gmap string string) : State Demo.Store :=
  Demo.start (mkRequest (mkHeaders None) ∅ ps ∅ (Some u)) Demo.store.

Definition publishers : list string := ["publisher"; "admin"].

End Cases.

(** ** The course controller: reading one course *)

Section Reading.
Context {DB : Type}.
Variable models : Models DB.

(** [getCourse], the function wrapped in [asyncHandler]; a public route. *)
Definition getCourse : Run (State DB) Signal :=
  s ← get;
  let cid := params (req s) !! "id" in
  course ← db_read (fun d => Course_findById models d cid);
  match course with
  | None =>
      mret (NextErr (mkErrorResponse
        ("Course with ID " +:+ Js.template cid +:+ " is not found.") 404))
  | Some c =>
      respond 200 (JObj [("success", JBool true); ("data", doc_json c)])
  end.

End Reading.

(** The message of each course handler's 404. *)
Definition missing (k : Mutation) (r : Request) : string :=
  match k with
  | Create =>
      "Bootcamp with ID " +:+ Js.template (params r !! "bootcampID")
        +:+ " is not found."
  | Update | Delete =>
      "Course with ID " +:+ Js.template (params r !! "id") +:+ " is not found."
  end.

(** [pieces.join(sep)] *)
Fixpoint join (sep : string) (pieces : list string) : string :=
  match pieces with
  | [] => ""
  | [p] => p
  | p :: rest => p +:+ sep +:+ join sep rest
  end.

(** ** The auth controller *)

Module JsV.

(** Truthiness of a value ([n] is an integer here, so there is no NaN). *)
Definition truthy (v : JsVal) : bool :=
  match v with
  | JUndefined | JNull => false
  | JBool b => b
  | JNum n => negb (n =? 0)
  | JStr s => Js.truthy s
  | JObj _ => true
  end.

(** A value inside a template literal. *)
Definition template (v : JsVal) : string :=
  match v with
  | JUndefined => "undefined"
  | JNull => "null"
  | JBool true => "true"
  | JBool false => "false"
  | JNum n => pretty n
  | JStr s => s
  | JObj _ => "[object Object]"
  end.

End JsV.

(** [req.body.k]: a missing key reads as [undefined]. *)
Definition field (r : Request) (k : string) : JsVal :=
  default JUndefined (body r !! k).

Definition newline : string := String "010"%char EmptyString.

(** A user document with the fields the auth controller writes. *)
Record Account := mkAccount {
  acc_user : User;
  password : JsVal;
  resetPasswordToken : option string;
  resetPasswordExpire : option Z
}.

Record Email := mkEmail {
  mail_to : string;
  mail_subject : string;
  mail_text : string
}.

(** What the auth controller calls and the sources do not hold: the User
    model's queries and methods, [utils/email] and [crypto]'s SHA-256.  [W]
    is the world outside the request, the store and the mail sent.
    - [User_create w name email password role]: [User.create({..})];
    - [User_findOne w email selectPassword]: [User.findOne({ email })],
      with [.select('+password')] when the flag is set;
    - [User_findOne_reset w digest t]: [User.findOne] on the reset digest
      with an expiry after [t];
    - [User_findById_password w id]: [User.findById(id).select('+password')];
    - [User_findByIdAndUpdate w id body];
    - [isPasswordCorrect a candidate], [getResetPasswordToken a] (the raw
      token and the user as it leaves the call);
    - [save w a validate]: [user.save()], or
      [user.save({ validateBeforeSave: false })] when [validate] is off;
    - [toJSON u]: the user as [res.json] writes it. *)
Record Accounts (W : Type) := mkAccounts {
  User_create : W -> JsVal -> JsVal -> JsVal -> JsVal -> Exc Account * W;
  User_findOne : W -> JsVal -> bool -> Exc (option Account);
  User_findOne_reset : W -> string -> Z -> Exc (option Account);
  User_findById_password : W -> ObjectId -> Exc (option Account);
  User_findByIdAndUpdate :
    W -> ObjectId -> gmap string JsVal -> Exc (option User) * W;
  isPasswordCorrect : Account -> JsVal -> Exc bool;
  getResetPasswordToken : Account -> string * Account;
  save : W -> Account -> bool -> Exc unit * W;
  toJSON : User -> JsVal;
  sendEmail : W -> Email -> Exc unit * W;
  sha256_hex : string -> string
}.
Arguments User_create {W} _ _ _ _ _ _.
Arguments User_findOne {W} _ _ _ _.
Arguments User_findOne_reset {W} _ _ _ _.
Arguments User_findById_password {W} _ _ _.
Arguments User_findByIdAndUpdate {W} _ _ _ _.
Arguments isPasswordCorrect {W} _ _ _.
Arguments getResetPasswordToken {W} _ _.
Arguments save {W} _ _ _ _.
Arguments toJSON {W} _ _.
Arguments sendEmail {W} _ _ _.
Arguments sha256_hex {W} _ _.

Definition set_password (p : JsVal) (a : Account) : Account :=
  mkAccount (acc_user a) p (resetPasswordToken a) (resetPasswordExpire a).

(** [user.resetPasswordToken = undefined; user.resetPasswordExpire = undefined] *)
Definition clear_reset (a : Account) : Account :=
  mkAccount (acc_user a) (password a) None None.

Section AuthController.
Context {W : Type}.
Variable env : ProcessEnv.
Variable jwt : Jsonwebtoken.
Variable models : Models W.
Variable accounts : Accounts W.
Variable now : Z.

(** [req.user.id], which throws without [req.user]. *)
Definition current_id : Run (State W) ObjectId :=
  s ← get;
  match user (req s) with
  | None => throw (TypeError "Cannot read property 'id' of undefined")
  | Some u => mret (_id u)
  end.

(** [sendTokenResponse(user, code, res)] as the handlers call it. *)
Definition issue (u : User) (code : Z) : Run (State W) Signal :=
  _ ← modify (on_res (sendTokenResponse env jwt now u code));
  mret Sent.

(** The functions below are the ones the source wraps in [asyncHandler]. *)

Definition authRegister : Run (State W) Signal :=
  s ← get;
  created ← db_write (fun d =>
               User_create accounts d (field (req s) "name") (field (req s) "email")
                           (field (req s) "password") (field (req s) "role"));
  issue (acc_user created) 200.

Definition authLogin : Run (State W) Signal :=
  s ← get;
  let email_v := field (req s) "email" in
  let password_v := field (req s) "password" in
  if negb (JsV.truthy email_v) || negb (JsV.truthy password_v)
  then mret (NextErr (mkErrorResponse "Please enter username and password." 400))
  else
    found ← db_read (fun d => User_findOne accounts d email_v true);
    match found with
    | None => mret (NextErr (mkErrorResponse "Bad credentials." 401))
    | Some a =>
        pwCorrect ← lift_exc (isPasswordCorrect accounts a password_v);
        if negb pwCorrect
        then mret (NextErr (mkErrorResponse "Bad credentials." 401))
        else issue (acc_user a) 200
    end.

Definition authLogout : Run (State W) Signal :=
  _ ← modify (on_res (cookie "token" ""
                        (mkCookieOptions (now - 10 * 1000) true false)));
  _ ← modify (on_res (status 204));
  mret Sent.

(** [protocol] and [host] are [req.protocol] and [req.get('host')]. *)
Definition authForgotPassword (protocol host : string) : Run (State W) Signal :=
  s ← get;
  let email_v := field (req s) "email" in
  if negb (JsV.truthy email_v)
  then mret (NextErr (mkErrorResponse "Email address is required." 400))
  else
    found ← db_read (fun d => User_findOne accounts d email_v false);
    match found with
    | None =>
        mret (NextErr (mkErrorResponse
          (JsV.template email_v +:+ " is not associated with an existing user.") 404))
    | Some a =>
        let resetToken := fst (getResetPasswordToken accounts a) in
        let a1 := snd (getResetPasswordToken accounts a) in
        _ ← db_write (fun d => save accounts d a1 false);
        let url := "/api/v1/auth/reset-password/" +:+ resetToken in
        let fullResetPasswordUrl := protocol +:+ "://" +:+ host +:+ url in
        let subject := "Password Reset Email" in
        let text := "Please make a PUT request to the following url."
                      +:+ newline +:+ fullResetPasswordUrl in
        failed ← try_catch
          (_ ← db_write (fun d =>
                  sendEmail accounts d (mkEmail (email (acc_user a1)) subject text));
           mret None)
          (fun e =>
             _ ← db_write (fun d => save accounts d (clear_reset a1) false);
             mret (Some (NextErr (mkErrorResponse
                                   "Error sending password reset email." 500))));
        match failed with
        | Some sig => mret sig
        | None => respond 200 (JObj [("success", JBool true); ("data", JObj [])])
        end
    end.

Definition authResetPassword : Run (State W) Signal :=
  s ← get;
  match params (req s) !! "resetToken" with
  | None => throw (TypeError "The data argument must be of type string")
  | Some raw =>
      let resetTokenDigest := sha256_hex accounts raw in
      found ← db_read (fun d => User_findOne_reset accounts d resetTokenDigest now);
      match found with
      | None => mret (NextErr (mkErrorResponse "Invalid token provided." 400))
      | Some a =>
          let a' := clear_reset (set_password (field (req s) "password") a) in
          _ ← db_write (fun d => save accounts d a' true);
          issue (acc_user a') 200
      end
  end.

Definition authUpdateInfo : Run (State W) Signal :=
  s ← get;
  if negb (JsV.truthy (field (req s) "name"))
     || negb (JsV.truthy (field (req s) "email"))
  then mret (NextErr (mkErrorResponse "Name and Email required." 400))
  else
    uid ← current_id;
    found ← db_read (fun d => User_findById models d uid);
    match found with
    | None => mret (NextErr (mkErrorResponse "User not found." 404))
    | Some _ =>
        updated ← db_write (fun d =>
                     User_findByIdAndUpdate accounts d uid (body (req s)));
        respond 200 (JObj [("success", JBool true);
                           ("data", from_option (toJSON accounts) JNull updated)])
    end.

Definition authUpdatePassword : Run (State W) Signal :=
  s ← get;
  let oldPassword := field (req s) "oldPassword" in
  let newPassword := field (req s) "newPassword" in
  if negb (JsV.truthy oldPassword) || negb (JsV.truthy newPassword)
  then mret (NextErr (mkErrorResponse "Please enter old and new passwords." 400))
  else
    uid ← current_id;
    found ← db_read (fun d => User_findById_password accounts d uid);
    match found with
    | None =>
        throw (TypeError "Cannot read property 'isPasswordCorrect' of null")
    | Some a =>
        pwCorrect ← lift_exc (isPasswordCorrect accounts a oldPassword);
        if negb pwCorrect
        then mret (NextErr (mkErrorResponse "Incorrect old password." 401))
        else
          _ ← db_write (fun d => save accounts d (set_password newPassword a) true);
          issue (acc_user a) 200
    end.

Definition authGetMe : Run (State W) Signal :=
  uid ← current_id;
  found ← db_read (fun d => User_findById models d uid);
  match found with
  | None => mret (NextErr (mkErrorResponse "User not found." 404))
  | Some u =>
      respond 200 (JObj [("success", JBool true); ("data", toJSON accounts u)])
  end.

End AuthController.

(** The handlers of the auth controller that begin by checking that
    fields of the body are present, the fields each one requires, and the
    message of its 400. *)
Inductive Form := LoginForm | ForgotForm | InfoForm | PasswordForm.

Definition required (f : Form) : list string :=
  match f with
  | LoginForm => ["email"; "password"]
  | ForgotForm => ["email"]
  | InfoForm => ["name"; "email"]
  | PasswordForm => ["oldPassword"; "newPassword"]
  end.

Definition complaint (f : Form) : string :=
  match f with
  | LoginForm => "Please enter username and password."
  | ForgotForm => "Email address is required."
  | InfoForm => "Name and Email required."
  | PasswordForm => "Please enter old and new passwords."
  end.

Section Forms.
Context {W : Type}.
Variable env : ProcessEnv.
Variable jwt : Jsonwebtoken.
Variable models : Models W.
Variable accounts : Accounts W.
Variable now : Z.
Variables protocol host : string.

Definition form_handler (f : Form) : Run (State W) Signal :=
  match f with
  | LoginForm => authLogin env jwt accounts now
  | ForgotForm => authForgotPassword accounts protocol host
  | InfoForm => authUpdateInfo models accounts
  | PasswordForm => authUpdatePassword env jwt accounts now
  end.

End Forms.

(** ** The small deployment with accounts and mail

    A world made of the store above, the accounts by identifier, the mail
    sent so far and whether mail can be sent; and stand-ins for the User
    model's methods: passwords are compared as texts, the reset token of a
    user is ["reset-"] and the identifier, the digest wraps its input. *)

Module Office.

Record World := mkWorld {
  store : Demo.Store;
  vault : gmap string Account;
  outbox : list Email;
  mail_up : bool
}.

Definition with_store (w : World) (d : Demo.Store) : World :=
  mkWorld d (vault w) (outbox w) (mail_up w).

Definition with_vault (w : World) (v : gmap string Account) : World :=
  mkWorld (store w) v (outbox w) (mail_up w).

Definition lift_write {A} (w : World) (r : Exc A * Demo.Store) : Exc A * World :=
  (fst r, with_store w (snd r)).

Definition models : Models World :=
  mkModels World
    (fun w i => User_findById Demo.models (store w) i)
    (fun w i => Bootcamp_findById Demo.models (store w) i)
    (fun w i => Course_findById Demo.models (store w) i)
    (fun w b => lift_write w (Course_create Demo.models (store w) b))
    (fun w i b => lift_write w (Course_findByIdAndUpdate Demo.models (store w) i b))
    (fun w c => lift_write w (Course_remove Demo.models (store w) c)).

Definition digest (raw : string) : string := "sha256(" +:+ raw +:+ ")".

Definition text_of (v : JsVal) : option string :=
  match v with
  | JStr t => Some t
  | _ => None
  end.

Definition accounts_list (w : World) : list Account :=
  map snd (map_to_list (vault w)).

Definition by_email (w : World) (v : JsVal) : option Account :=
  match v with
  | JStr e => List.find (fun a => String.eqb (email (acc_user a)) e) (accounts_list w)
  | _ => None
  end.

Definition by_reset (w : World) (dg : string) (t : Z) : option Account :=
  List.find
    (fun a =>
       match resetPasswordToken a, resetPasswordExpire a with
       | Some g, Some e => String.eqb g dg && (t <? e)
       | _, _ => false
       end)
    (accounts_list w).

Definition user_json (u : User) : JsVal :=
  JObj [("_id", JStr (_id u)); ("role", JStr (role u));
        ("name", JStr (name u)); ("email", JStr (email u))].

Definition accounts : Accounts World :=
  mkAccounts World
    (fun w n e p r =>
       match text_of n, text_of e, Demo.online (store w) with
       | Some n', Some e', true =>
           let a := mkAccount (mkUser "u-new" (default "user" (text_of r)) n' e')
                              p None None in
           (Value a, with_vault w (<["u-new" := a]> (vault w)))
       | _, _, true => (Throw (StorageError "validation failed"), w)
       | _, _, false => (Demo.offline, w)
       end)
    (fun w e _ => Demo.read (store w) (by_email w e))
    (fun w dg t => Demo.read (store w) (by_reset w dg t))
    (fun w i => Demo.read (store w) (vault w !! i))
    (fun w i b =>
       if Demo.online (store w)
       then (Value (Demo.users (store w) !! i), w)
       else (Demo.offline, w))
    (fun a p =>
       match password a, p with
       | JStr x, JStr y => Value (String.eqb x y)
       | _, _ => Throw (TypeError "data and hash must be strings")
       end)
    (fun a =>
       ("reset-" +:+ _id (acc_user a),
        mkAccount (acc_user a) (password a)
                  (Some (digest ("reset-" +:+ _id (acc_user a))))
                  (Some 1700000600000)))
    (fun w a validate =>
       if negb (Demo.online (store w)) then (Demo.offline, w)
       else if validate && negb (JsV.truthy (password a))
            then (Throw (StorageError "validation failed"), w)
            else (Value tt, with_vault w (<[_id (acc_user a) := a]> (vault w))))
    user_json
    (fun w m =>
       if mail_up w
       then (Value tt, mkWorld (store w) (vault w) (outbox w ++ [m]) true)
       else (Throw (StorageError "smtp unreachable"), w))
    digest.

Definition alice_account : Account :=
  mkAccount Demo.alice (JStr "correct horse") None None.

(** Bob asked for a reset a moment ago. *)
Definition bob_account : Account :=
  mkAccount Demo.bob (JStr "hunter2") (Some (digest "reset-u2")) (Some 1700000600000).

Definition world : World :=
  mkWorld Demo.store
          (<["u1" := alice_account]> (<["u2" := bob_account]> ∅))
          [] true.

Definition world_no_mail : World :=
  mkWorld Demo.store (vault world) [] false.

(** A request with the given identity, route parameters and body. *)
Definition request (u : option User) (ps : gmap string string)
           (b : gmap string JsVal) : Request :=
  mkRequest (mkHeaders None) ∅ ps b u.

Definition start (r : Request) (w : World) : State World :=
  mkState r Demo.blank w.

Definition login_body (e p : string) : gmap string JsVal :=
  <["email" := JStr e]> (<["password" := JStr p]> ∅).

Definition passwords_body (o n : string) : gmap string JsVal :=
  <["oldPassword" := JStr o]> (<["newPassword" := JStr n]> ∅).

(** [root] has an identity but no account in the vault. *)
Definition root_gone : State World :=
  start (request (Some Demo.root) ∅ (passwords_body "a" "b"))
        (mkWorld (Demo.mkStore ∅ ∅ ∅ true) ∅ [] true).

(** Alice changing her password, giving [o] as the old one. *)
Definition alice_changes (o : string) : State World :=
  start (request (Some Demo.alice) ∅ (passwords_body o "new")) world.

(** A login attempt. *)
Definition attempt (e p : string) : State World :=
  start (request None ∅ (login_body e p)) world.

(** Bob asking for a reset mail. *)
Definition bob_forgot (w : World) : State World :=
  start (request None ∅ {["email" := JStr "bob@example.com"]}) w.

(** Bob using the token of his mail. *)
Definition bob_resets : State World :=
  start (request None {["resetToken" := "reset-u2"]} {["password" := JStr "new"]})
        world.

Definition signup (extra : gmap string JsVal) : State World :=
  start (request None ∅
           (<["name" := JStr "Carol"]>
              (<["email" := JStr "carol@example.com"]>
                 (<["password" := JStr "pw"]> (<["role" := JStr "admin"]> extra)))))
        world.

(** Alice updating her details, the body naming Bob's identifier. *)
Definition alice_updates : State World :=
  start (request (Some Demo.alice) ∅
           (<["name" := JStr "Alice"]>
              (<["email" := JStr "alice@example.com"]> {["_id" := JStr "u2"]})))
        world.

(** Alice adding a course to her bootcamp, the body naming another user. *)
Definition alice_adds : State Demo.Store :=
  Demo.start
    (mkRequest (mkHeaders None) ∅ {["bootcampID" := "b1"]}
               (<["user" := JStr "u3"]> {["title" := JStr "Rocq 101"]})
               (Some Demo.alice))
    Demo.store.

End Office.

(** ** From the issuer's response to the verifier's request *)

(** [obj.k] on the fields of an object. *)
Fixpoint property (k : string) (fields : list (string * JsVal)) : JsVal :=
  match fields with
  | [] => JUndefined
  | (k', v) :: rest => if String.eqb k' k then v else property k rest
  end.

(** The token a client reads in the JSON body of a response. *)
Definition body_token (r : Response) : option string :=
  match res_json r with
  | Some (JObj fields) =>
      match property "token" fields with
      | JStr t => Some t
      | _ => None
      end
  | _ => None
  end.

(** The token a client keeps from the cookies of a response: the value of
    the last cookie set, when its name is [token]. *)
Definition cookie_token (r : Response) : option string :=
  match last (res_cookies r) with
  | Some c => if String.eqb (cookie_name c) "token" then Some (cookie_value c) else None
  | None => None
  end.

(** What the gate relies on from [jsonwebtoken]: a token it signed
    verifies, with the same secret and before the payload's expiry, to the
    payload that was signed; and a token is compact, not empty and without
    a space. *)
Record JwtContract (jwt : Jsonwebtoken) : Prop := mkJwtContract {
  verify_sign :
    forall (p : Payload) (secret : string) (t : Z),
      t < exp p -> jwt_verify jwt t (jwt_sign jwt p secret) secret = Value p;
  sign_compact :
    forall (p : Payload) (secret : string),
      presentable (jwt_sign jwt p secret) = true
}.

(** ** A stand-in for [jsonwebtoken] that keeps the contract

    Identifier and secret are written bit by bit and the two times in
    binary, so that the four fields of a token hold neither a dot nor a
    space and every signed token can be read back, whatever the payload
    and the secret. *)

Module Sealed.

Definition bit (b : bool) : ascii := if b then "1"%char else "0"%char.

Definition unbit (c : ascii) : option bool :=
  if Ascii.eqb c "1" then Some true
  else if Ascii.eqb c "0" then Some false
  else None.

Fixpoint bits_of (s : string) : string :=
  match s with
  | EmptyString => EmptyString
  | String (Ascii b0 b1 b2 b3 b4 b5 b6 b7) rest =>
      String (bit b0) (String (bit b1) (String (bit b2) (String (bit b3)
        (String (bit b4) (String (bit b5) (String (bit b6) (String (bit b7)
          (bits_of rest))))))))
  end.

Fixpoint of_bits (s : string) : option string :=
  match s with
  | EmptyString => Some EmptyString
  | String c0 (String c1 (String c2 (String c3
      (String c4 (String c5 (String c6 (String c7 rest))))))) =>
      b0 ← unbit c0; b1 ← unbit c1; b2 ← unbit c2; b3 ← unbit c3;
      b4 ← unbit c4; b5 ← unbit c5; b6 ← unbit c6; b7 ← unbit c7;
      r ← of_bits rest;
      Some (String (Ascii b0 b1 b2 b3 b4 b5 b6 b7) r)
  | _ => None
  end.

Fixpoint pos_text (p : positive) : string :=
  match p with
  | xH => EmptyString
  | xO q => String "0" (pos_text q)
  | xI q => String "1" (pos_text q)
  end.

Fixpoint text_pos (s : string) : option positive :=
  match s with
  | EmptyString => Some xH
  | String c rest =>
      b ← unbit c; q ← text_pos rest; Some (if b : bool then xI q else xO q)
  end.

Definition z_text (z : Z) : string :=
  match z with
  | Z0 => "z"
  | Zpos p => String "p" (pos_text p)
  | Zneg p => String "n" (pos_text p)
  end.

Definition text_z (s : string) : option Z :=
  match s with
  | EmptyString => None
  | String c rest =>
      if Ascii.eqb c "z" then (if String.eqb rest "" then Some 0 else None)
      else if Ascii.eqb c "p" then Zpos <$> text_pos rest
      else if Ascii.eqb c "n" then Zneg <$> text_pos rest
      else None
  end.

Definition sign (p : Payload) (secret : string) : string :=
  bits_of (id p) +:+ String "." (z_text (iat p) +:+ String "." (z_text (exp p)
    +:+ String "." (bits_of secret))).

Definition verify (now : Z) (t secret : string) : Exc Payload :=
  match Js.split "." t with
  | [i; a; e; g] =>
      if negb (String.eqb g (bits_of secret))
      then Throw (JsonWebTokenError "invalid signature")
      else match of_bits i, text_z a, text_z e with
           | Some i', Some a', Some e' =>
               if e' <=? now then Throw (TokenExpiredError e')
               else Value (mkPayload i' a' e')
           | _, _, _ => Throw (JsonWebTokenError "jwt malformed")
           end
  | _ => Throw (JsonWebTokenError "jwt malformed")
  end.

Definition jwt : Jsonwebtoken := mkJsonwebtoken sign verify.

(** Neither a dot nor a space. *)
Fixpoint plain (s : string) : bool :=
  match s with
  | EmptyString => true
  | String c rest =>
      negb (Ascii.eqb c ".") && negb (Ascii.eqb c " ") && plain rest
  end.

End Sealed.

(** * Properties *)

(** ** The monad's equations *)

Section RunFacts.
Context {S : Type}.

Lemma bind_value {A B} (m : Run S A) (k : A -> Run S B) s a s' :
  m s = (Value a, s') -> (m ≫= k) s = k a s'.
Proof. intros E. unfold mbind, Run_bind. now rewrite E. Qed.

Lemma bind_throw {A B} (m : Run S A) (k : A -> Run S B) s e s' :
  m s = (Throw e, s') -> (m ≫= k) s = (Throw e, s').
Proof. intros E. unfold mbind, Run_bind. now rewrite E. Qed.

Lemma try_catch_value {A} (m : Run S A) h s a s' :
  m s = (Value a, s') -> try_catch m h s = (Value a, s').
Proof. intros E. unfold try_catch. now rewrite E. Qed.

Lemma try_catch_throw {A} (m : Run S A) h s e s' :
  m s = (Throw e, s') -> try_catch m h s = h e s'.
Proof. intros E. unfold try_catch. now rewrite E. Qed.

End RunFacts.

(** ** JavaScript string facts *)

Lemma includes_elem_of (xs : list string) (x : string) :
  Js.includes xs x = true <-> x ∈ xs.
Proof.
  unfold Js.includes. rewrite existsb_exists. split.
  - intros (y & Hin & Heq). apply String.eqb_eq in Heq. subst y.
    now apply list_elem_of_In.
  - intros Hin. exists x. split; [now apply list_elem_of_In | apply String.eqb_refl].
Qed.

Lemma split_no_space (t : string) :
  no_space t = true -> Js.split " " t = [t].
Proof.
  induction t as [|c t IH]; simpl; [reflexivity|].
  intros H. apply andb_prop in H as [Hc Ht].
  apply negb_true_iff in Hc. rewrite Hc, (IH Ht). reflexivity.
Qed.

Example split_two_spaces :
  Js.split " " "Bearer  abc" = ["Bearer"; ""; "abc"].
Proof. reflexivity. Qed.

Example split_empty : Js.split " " "" = [""].
Proof. reflexivity. Qed.

Example bearer_token_plain :
  bearer_token (Demo.request (Some "Bearer abc.def")) = Some "abc.def".
Proof. reflexivity. Qed.

(** Only the piece after the first space is taken. *)
Example bearer_token_trailing :
  bearer_token (Demo.request (Some "Bearer abc def")) = Some "abc".
Proof. reflexivity. Qed.

(** The scheme is matched as a prefix, and the token may be missing. *)
Example bearer_token_scheme_only :
  bearer_token (Demo.request (Some "Bearer")) = None
  /\ bearer_token (Demo.request (Some "Bearer ")) = Some ""
  /\ bearer_token (Demo.request (Some "Bearertoken abc")) = Some "abc"
  /\ bearer_token (Demo.request (Some "Basic abc")) = None.
Proof. repeat split. Qed.

(** The header ["Bearer " ++ t] yields exactly [t]. *)
Lemma bearer_token_of_header (r : Request) (t : string) :
  authorization (headers r) = Some ("Bearer " +:+ t) ->
  no_space t = true ->
  bearer_token r = Some t.
Proof.
  intros Ha Ht. unfold bearer_token. rewrite Ha.
  change (Js.truthy ("Bearer " +:+ t) && Js.startsWith ("Bearer " +:+ t) "Bearer")
    with true.
  change (Js.split " " ("Bearer " +:+ t)) with ("Bearer" :: Js.split " " t).
  rewrite (split_no_space t Ht). reflexivity.
Qed.

Lemma no_bearer_header_no_token (r : Request) :
  no_bearer_header r = true -> bearer_token r = None.
Proof.
  unfold no_bearer_header, bearer_token.
  destruct (authorization (headers r)) as [a|]; [|reflexivity].
  intros H. apply negb_true_iff in H. rewrite H.
  now rewrite andb_false_r.
Qed.

(** ** [protect], case by case *)

Section ProtectFacts.
Context {DB : Type}.
Variable env : ProcessEnv.
Variable jwt : Jsonwebtoken.
Variable models : Models DB.
Variable now : Z.

Local Abbreviation gate := (protect env jwt models now).
Local Abbreviation generic := (NextErr (mkErrorResponse UNAUTHORIZED 401)).

Lemma protect_no_token (s : State DB) :
  Js.truthy_opt (bearer_token (req s)) = false ->
  gate s = (Value generic, s).
Proof.
  intros H. unfold protect, mbind, Run_bind, get.
  destruct (bearer_token (req s)) as [t|]; [|reflexivity].
  simpl in H. rewrite H. reflexivity.
Qed.

Lemma protect_verify_throws (s : State DB) t e :
  bearer_token (req s) = Some t ->
  Js.truthy t = true ->
  jwt_verify jwt now t (JWT_SECRET env) = Throw e ->
  gate s = (Value generic, s).
Proof.
  intros Ht Hn Hv. unfold protect, mbind, Run_bind, get.
  rewrite Ht, Hn. simpl. unfold try_catch, lift_exc. rewrite Hv. reflexivity.
Qed.

Lemma protect_lookup (s : State DB) t d :
  bearer_token (req s) = Some t ->
  Js.truthy t = true ->
  jwt_verify jwt now t (JWT_SECRET env) = Value d ->
  gate s =
    match User_findById models (db s) (id d) with
    | Value (Some u) => (Value Next, on_req (set_user u) s)
    | Value None =>
        (Value (NextErr (mkErrorResponse
                           "Token is not associated with a user anymore." 401)), s)
    | Throw _ => (Value generic, s)
    end.
Proof.
  intros Ht Hn Hv. unfold protect, mbind, Run_bind, get.
  rewrite Ht, Hn. simpl. unfold try_catch, lift_exc, db_read. rewrite Hv.
  destruct (User_findById models (db s) (id d)) as [[u|]|e]; reflexivity.
Qed.

(** [protect] returns on every input: nothing reaches [asyncHandler]. *)
Lemma protect_never_throws (s : State DB) :
  exists sig s', gate s = (Value sig, s').
Proof.
  destruct (Js.truthy_opt (bearer_token (req s))) eqn:Htok.
  - destruct (bearer_token (req s)) as [t|] eqn:Ht; [|discriminate].
    simpl in Htok.
    destruct (jwt_verify jwt now t (JWT_SECRET env)) as [d|e] eqn:Hv.
    + rewrite (protect_lookup s t d Ht Htok Hv).
      destruct (User_findById models (db s) (id d)) as [[u|]|e]; eauto.
    + rewrite (protect_verify_throws s t e Ht Htok Hv). eauto.
  - rewrite (protect_no_token s Htok). eauto.
Qed.

(** Every run of [protect] either attaches a stored user and passes, or
    fails in one of the three credential modes, or met a store failure. *)
Lemma protect_passes_or_fails (s : State DB) :
  (exists u, gate s = (Value Next, on_req (set_user u) s))
  \/ (exists m, fails env jwt models now s m)
  \/ (exists t d e,
        bearer_token (req s) = Some t /\
        jwt_verify jwt now t (JWT_SECRET env) = Value d /\
        User_findById models (db s) (id d) = Throw e).
Proof.
  destruct (Js.truthy_opt (bearer_token (req s))) eqn:Htok.
  - destruct (bearer_token (req s)) as [t|] eqn:Ht; [|discriminate].
    simpl in Htok.
    destruct (jwt_verify jwt now t (JWT_SECRET env)) as [d|e] eqn:Hv.
    + destruct (User_findById models (db s) (id d)) as [[u|]|e] eqn:Hu.
      * left. exists u. rewrite (protect_lookup s t d Ht Htok Hv), Hu. reflexivity.
      * right; left. exists SubjectMissing. eapply fails_missing; eauto.
      * right; right. eauto 6.
    + right; left. exists InvalidToken. eapply fails_invalid; eauto.
  - right; left. exists NoToken. now apply fails_no_token.
Qed.

(** C1 (as amended): whenever the credential fails -- no token in the
    [Authorization] header, a token the library refuses (bad signature,
    malformed, expired), or a verified token whose subject is no longer
    stored -- [protect] rejects with status 401 and leaves the request
    as it was.  The message is the generic one in the first two modes
    and the one about the lost association in the third. *)
Theorem protect_rejects_401 (s : State DB) (m : FailureMode) :
  fails env jwt models now s m ->
  gate s = (Value (NextErr (mkErrorResponse (outward_message m) 401)), s).
Proof.
  intros [Hno | t e Ht Hn Hv | t d Ht Hn Hv Hu]; simpl.
  - now apply protect_no_token.
  - eapply protect_verify_throws; eauto.
  - rewrite (protect_lookup s t d Ht Hn Hv), Hu. reflexivity.
Qed.

(** C3 (as amended): when the token verifies and the user lookup throws,
    the [catch] of [protect] turns the failure into the generic 401
    rejection; nothing is thrown onwards. *)
Theorem protect_storage_failure_is_401 (s : State DB) t d e :
  bearer_token (req s) = Some t ->
  Js.truthy t = true ->
  jwt_verify jwt now t (JWT_SECRET env) = Value d ->
  User_findById models (db s) (id d) = Throw e ->
  gate s = (Value generic, s).
Proof.
  intros Ht Hn Hv Hu. rewrite (protect_lookup s t d Ht Hn Hv), Hu. reflexivity.
Qed.

(** C4: a request whose bearer token verifies against the configured
    secret and whose subject is stored gets that user record attached as
    [req.user] and is passed to the next stage. *)
Theorem protect_attaches_identity (s : State DB) t d u :
  bearer_token (req s) = Some t ->
  Js.truthy t = true ->
  jwt_verify jwt now t (JWT_SECRET env) = Value d ->
  User_findById models (db s) (id d) = Value (Some u) ->
  gate s = (Value Next, on_req (set_user u) s)
  /\ user (req (snd (gate s))) = Some u.
Proof.
  intros Ht Hn Hv Hu. rewrite (protect_lookup s t d Ht Hn Hv), Hu.
  split; reflexivity.
Qed.

(** What [protect] answers does not depend on the cookies, and it hands
    them on as they came. *)
Lemma protect_cookie_independent (s : State DB) (c : gmap string string) :
  gate (on_req (set_cookies c) s)
  = (fst (gate s), on_req (set_cookies c) (snd (gate s))).
Proof.
  destruct (Js.truthy_opt (bearer_token (req s))) eqn:Htok.
  - destruct (bearer_token (req s)) as [t|] eqn:Ht; [|discriminate].
    simpl in Htok.
    destruct (jwt_verify jwt now t (JWT_SECRET env)) as [d|e] eqn:Hv.
    + rewrite (protect_lookup s t d Ht Htok Hv).
      rewrite (protect_lookup (on_req (set_cookies c) s) t d Ht Htok Hv).
      simpl. destruct (User_findById models (db s) (id d)) as [[u|]|e]; reflexivity.
    + rewrite (protect_verify_throws s t e Ht Htok Hv).
      now rewrite (protect_verify_throws (on_req (set_cookies c) s) t e Ht Htok Hv).
  - rewrite (protect_no_token s Htok).
    now rewrite (protect_no_token (on_req (set_cookies c) s) Htok).
Qed.

(** C10: a request with no [Authorization] header beginning with
    ["Bearer"] is rejected with the generic 401 whatever its cookies
    hold, a [token] cookie included: [protect] never reads them. *)
Theorem protect_ignores_cookies (s : State DB) (c : gmap string string) :
  no_bearer_header (req s) = true ->
  protect env jwt models now (on_req (set_cookies c) s)
  = (Value generic, on_req (set_cookies c) s).
Proof.
  intros H. apply protect_no_token.
  rewrite no_bearer_header_no_token; [reflexivity|].
  exact H.
Qed.

End ProtectFacts.

(** ** [authorize] *)

Section AuthorizeFacts.
Context {DB : Type}.

Local Abbreviation forbidden :=
  (NextErr (mkErrorResponse
              "Certain permission is not met to access this resource." 403)).

Lemma authorize_with_identity (roles : list string) (s : State DB) (u : User) :
  user (req s) = Some u ->
  authorize roles s =
    (Value (if Js.includes roles (role u) then Next else forbidden), s).
Proof.
  intros Hu. unfold authorize, mbind, Run_bind, get. rewrite Hu.
  destruct (Js.includes roles (role u)); reflexivity.
Qed.

(** [authorize] writes nothing, whatever it answers. *)
Lemma authorize_state (roles : list string) (s : State DB) :
  snd (authorize roles s) = s.
Proof.
  unfold authorize, mbind, Run_bind, get.
  destruct (user (req s)) as [u|]; [|reflexivity].
  destruct (negb (Js.includes roles (role u))); reflexivity.
Qed.

(** C2: without an identity on the request ([req.user] undefined),
    [authorize] throws while reading the role and so never calls
    [next()]: the request does not reach the role-gated handler. *)
Theorem authorize_fails_closed (roles : list string) (s : State DB) :
  user (req s) = None ->
  authorize roles s
  = (Throw (TypeError "Cannot read property 'role' of undefined"), s)
  /\ fst (authorize roles s) <> Value Next.
Proof.
  intros Hu. unfold authorize, mbind, Run_bind, get. rewrite Hu.
  split; [reflexivity | discriminate].
Qed.

(** C5: with an identity on the request, [authorize] rejects with status
    403 and the insufficient-permission message exactly when the
    identity's role is not among the allowed roles, and passes the request
    on exactly when it is. *)
Theorem authorize_by_membership (roles : list string) (s : State DB) (u : User) :
  user (req s) = Some u ->
  (authorize roles s = (Value forbidden, s) <-> role u ∉ roles)
  /\ (authorize roles s = (Value Next, s) <-> role u ∈ roles).
Proof.
  intros Hu. rewrite (authorize_with_identity roles s u Hu).
  rewrite <- includes_elem_of.
  destruct (Js.includes roles (role u)); split; split; intros H;
    solve [reflexivity | discriminate | congruence | exfalso; apply H; reflexivity].
Qed.

(** C9: when the identity's role is among the allowed roles, [authorize]
    passes the request on and changes nothing: the request (identity
    included), the response and the store are the ones it was given. *)
Theorem authorize_pass_through (roles : list string) (s : State DB) (u : User) :
  user (req s) = Some u ->
  role u ∈ roles ->
  authorize roles s = (Value Next, s)
  /\ req (snd (authorize roles s)) = req s
  /\ res (snd (authorize roles s)) = res s
  /\ db (snd (authorize roles s)) = db s.
Proof.
  intros Hu Hin. apply includes_elem_of in Hin.
  rewrite (authorize_with_identity roles s u Hu), Hin. repeat split.
Qed.

End AuthorizeFacts.

(** ** The ownership check of the course handlers *)

Section OwnershipFacts.
Context {DB : Type}.
Variable models : Models DB.

Lemma identity_some (s : State DB) (u : User) :
  user (req s) = Some u -> identity s = (Value u, s).
Proof. intros Hu. unfold identity, mbind, Run_bind, get. now rewrite Hu. Qed.

(** With an identity and a stored resource, each handler is its check
    followed by the rest of its body. *)
Lemma handler_check (k : Mutation) (s : State DB) (u : User) (doc : Document) :
  user (req s) = Some u ->
  guarded_resource models k s = Value (Some doc) ->
  handler models k s =
    if negb (equals (doc_user doc) (_id u)) && negb (String.eqb (role u) "admin")
    then (Value (NextErr (mkErrorResponse (denial k s) 403)), at_check k u s)
    else mutation models k doc (at_check k u s).
Proof.
  intros Hu Hdoc.
  destruct k; simpl in Hdoc |- *;
    [unfold createCourse | unfold updateCourse | unfold deleteCourse];
    rewrite (bind_value _ _ _ _ _ (identity_some s u Hu));
    unfold mbind, Run_bind, get, modify, db_read; simpl; rewrite Hdoc;
    destruct (negb (equals (doc_user doc) (_id u)) && negb (String.eqb (role u) "admin"));
    reflexivity.
Qed.

(** Once past the check, no handler answers with an [ErrorResponse]. *)
Lemma mutation_no_rejection (k : Mutation) (doc : Document) (s : State DB)
      (err : ErrorResponse) :
  fst (mutation models k doc s) <> Value (NextErr err).
Proof.
  destruct k; simpl; unfold mbind, Run_bind, get, db_write, respond, modify; simpl.
  - destruct (Course_create models (db s) (body (req s))) as [[c|e] d]; discriminate.
  - destruct (Course_findByIdAndUpdate models (db s) (params (req s) !! "id")
                (body (req s))) as [[c|e] d]; discriminate.
  - destruct (Course_remove models (db s) doc) as [[[]|e] d]; discriminate.
Qed.

(** C7: in [createCourse], [updateCourse] and [deleteCourse], once the
    guarded resource is found, an identity whose role is ["admin"] passes
    the ownership check whoever owns the resource (the handler goes on to
    its mutation and answers with no 403), while an identity that is not
    an admin and not the owner is rejected with status 403. *)
Theorem ownership_gate (k : Mutation) (s : State DB) (u : User) (doc : Document) :
  user (req s) = Some u ->
  guarded_resource models k s = Value (Some doc) ->
  (role u = "admin" ->
     handler models k s = mutation models k doc (at_check k u s)
     /\ forall err, fst (handler models k s) <> Value (NextErr err))
  /\ (role u <> "admin" -> doc_user doc <> _id u ->
      handler models k s
      = (Value (NextErr (mkErrorResponse (denial k s) 403)), at_check k u s)).
Proof.
  intros Hu Hdoc. rewrite (handler_check k s u doc Hu Hdoc). split.
  - intros Hadmin. apply String.eqb_eq in Hadmin. rewrite Hadmin.
    rewrite andb_false_r. split; [reflexivity|].
    intros err. apply mutation_no_rejection.
  - intros Hrole Hown.
    apply String.eqb_neq in Hrole. apply String.eqb_neq in Hown.
    unfold equals. rewrite Hrole, Hown. reflexivity.
Qed.

End OwnershipFacts.

(** ** Issuing *)

Section IssuerFacts.
Context {DB : Type}.
Variable env : ProcessEnv.
Variable jwt : Jsonwebtoken.
Variable models : Models DB.
Variable now : Z.

(** C8: the response of [sendTokenResponse] has the status it was given,
    one more cookie, named [token], HTTP-only, carrying the signed token
    and expiring at the issue time plus the configured lifetime, which is
    the expiry inside the token; its JSON body is
    [{ success: true, token }]. *)
Theorem sendTokenResponse_sets_cookie (u : User) (code : Z) (r : Response) :
  exists c,
    sendTokenResponse env jwt now u code r
    = mkResponse code (res_cookies r ++ [c])
        (Some (JObj [("success", JBool true);
                     ("token", JStr (getSignedToken env jwt now u))]))
    /\ cookie_name c = "token"
    /\ cookie_value c = getSignedToken env jwt now u
    /\ httpOnly (cookie_options c) = true
    /\ secure (cookie_options c) = String.eqb (NODE_ENV env) "Production"
    /\ expires (cookie_options c)
       = iat (token_payload env now u) + JWT_COOKIE_EXPIRES env * 24 * 3600 * 1000
    /\ expires (cookie_options c) = exp (token_payload env now u)
    /\ getSignedToken env jwt now u
       = jwt_sign jwt (token_payload env now u) (JWT_SECRET env).
Proof.
  unfold sendTokenResponse, json, cookie, status. simpl.
  eexists. split; [reflexivity|]. simpl.
  destruct (String.eqb (NODE_ENV env) "Production"); simpl; repeat split.
Qed.

(** C6: the token in the response [sendTokenResponse] builds for a user
    (the [token] field of the JSON body, which is also the value of the
    [token] cookie), presented at once as [Authorization: Bearer <token>],
    verifies against the configured secret to a payload carrying that
    user's identifier, is the token [protect] extracts, and makes the
    lookup of [protect] the lookup of that user's [_id], whose result
    decides the answer: the stored user attached and [next()], or a 401.
    Assumed: the library's contract, and a configured lifetime above 0. *)
Theorem issue_then_verify (u : User) (code : Z) (r : Response) :
  JwtContract jwt ->
  0 < JWT_COOKIE_EXPIRES env ->
  exists t,
    body_token (sendTokenResponse env jwt now u code r) = Some t
    /\ cookie_token (sendTokenResponse env jwt now u code r) = Some t
    /\ (exists d, jwt_verify jwt now t (JWT_SECRET env) = Value d /\ id d = _id u)
    /\ forall s : State DB,
         authorization (headers (req s)) = Some ("Bearer " +:+ t) ->
         bearer_token (req s) = Some t
         /\ protect env jwt models now s =
              match User_findById models (db s) (_id u) with
              | Value (Some u') => (Value Next, on_req (set_user u') s)
              | Value None =>
                  (Value (NextErr (mkErrorResponse
                                     "Token is not associated with a user anymore."
                                     401)), s)
              | Throw _ => (Value (NextErr (mkErrorResponse UNAUTHORIZED 401)), s)
              end.
Proof.
  intros [Hverify Hcompact] Hlife.
  assert (Hlib : jwt_verify jwt now (getSignedToken env jwt now u) (JWT_SECRET env)
                 = Value (token_payload env now u))
    by (apply Hverify; simpl; lia).
  pose proof (Hcompact (token_payload env now u) (JWT_SECRET env)) as Hpres.
  apply andb_prop in Hpres as [Htruthy Hspace].
  exists (getSignedToken env jwt now u).
  split; [reflexivity|]. split.
  { unfold cookie_token, sendTokenResponse, json, cookie, status. simpl.
    rewrite last_snoc. reflexivity. }
  split.
  { exists (token_payload env now u). split; [exact Hlib | reflexivity]. }
  intros s Hhdr.
  pose proof (bearer_token_of_header (req s) _ Hhdr Hspace) as Htok.
  split; [exact Htok|].
  rewrite (protect_lookup env jwt models now s _ _ Htok Htruthy Hlib).
  reflexivity.
Qed.

End IssuerFacts.

(** ** The stand-in keeps the library's contract *)

Section SealedFacts.

Lemma unbit_bit (b : bool) : Sealed.unbit (Sealed.bit b) = Some b.
Proof. destruct b; reflexivity. Qed.

Lemma of_bits_bits_of (s : string) : Sealed.of_bits (Sealed.bits_of s) = Some s.
Proof.
  induction s as [|[b0 b1 b2 b3 b4 b5 b6 b7] s IH]; [reflexivity|].
  cbn [Sealed.bits_of Sealed.of_bits].
  rewrite !unbit_bit. cbn. rewrite IH. reflexivity.
Qed.

Lemma text_pos_pos_text (p : positive) : Sealed.text_pos (Sealed.pos_text p) = Some p.
Proof. induction p as [p IH|p IH|]; cbn; rewrite ?IH; reflexivity. Qed.

Lemma text_z_z_text (z : Z) : Sealed.text_z (Sealed.z_text z) = Some z.
Proof. destruct z; cbn; rewrite ?text_pos_pos_text; reflexivity. Qed.

Lemma plain_cons_bit (b : bool) (s : string) :
  Sealed.plain (String (Sealed.bit b) s) = Sealed.plain s.
Proof. destruct b; reflexivity. Qed.

Lemma plain_bits_of (s : string) : Sealed.plain (Sealed.bits_of s) = true.
Proof.
  induction s as [|[b0 b1 b2 b3 b4 b5 b6 b7] s IH]; [reflexivity|].
  cbn [Sealed.bits_of]. rewrite !plain_cons_bit. exact IH.
Qed.

Lemma plain_pos_text (p : positive) : Sealed.plain (Sealed.pos_text p) = true.
Proof. induction p as [p IH|p IH|]; cbn; auto. Qed.

Lemma plain_z_text (z : Z) : Sealed.plain (Sealed.z_text z) = true.
Proof. destruct z; cbn; auto using plain_pos_text. Qed.

Lemma plain_cons (c : ascii) (s : string) :
  Sealed.plain (String c s) = true ->
  Ascii.eqb c "." = false /\ Ascii.eqb c " " = false /\ Sealed.plain s = true.
Proof.
  cbn. intros H. apply andb_prop in H as [H Hs]. apply andb_prop in H as [Hd Hsp].
  apply negb_true_iff in Hd, Hsp. auto.
Qed.

Lemma split_plain_last (g : string) :
  Sealed.plain g = true -> Js.split "." g = [g].
Proof.
  induction g as [|c g IH]; [reflexivity|].
  intros H. apply plain_cons in H as (Hd & _ & Hg).
  cbn [Js.split]. rewrite Hd, (IH Hg). reflexivity.
Qed.

Lemma split_plain (x y : string) :
  Sealed.plain x = true ->
  Js.split "." (x +:+ String "." y) = x :: Js.split "." y.
Proof.
  induction x as [|c x IH]; [reflexivity|].
  intros H. apply plain_cons in H as (Hd & _ & Hx).
  change (String c x +:+ String "." y) with (String c (x +:+ String "." y)).
  cbn [Js.split]. rewrite Hd, (IH Hx). reflexivity.
Qed.

Lemma plain_no_space (x : string) : Sealed.plain x = true -> no_space x = true.
Proof.
  induction x as [|c x IH]; [reflexivity|].
  intros H. apply plain_cons in H as (_ & Hsp & Hx).
  cbn [no_space]. rewrite Hsp, (IH Hx). reflexivity.
Qed.

Lemma no_space_app (x y : string) :
  no_space (x +:+ y) = no_space x && no_space y.
Proof.
  induction x as [|c x IH]; [reflexivity|].
  change (String c x +:+ y) with (String c (x +:+ y)).
  cbn [no_space]. rewrite IH. now rewrite andb_assoc.
Qed.

Lemma truthy_app_cons (x : string) (c : ascii) (y : string) :
  Js.truthy (x +:+ String c y) = true.
Proof. destruct x; reflexivity. Qed.

Lemma sealed_verify_sign (p : Payload) (secret : string) (t : Z) :
  t < exp p -> Sealed.verify t (Sealed.sign p secret) secret = Value p.
Proof.
  intros Ht. unfold Sealed.verify, Sealed.sign.
  rewrite (split_plain _ _ (plain_bits_of (id p))).
  rewrite (split_plain _ _ (plain_z_text (iat p))).
  rewrite (split_plain _ _ (plain_z_text (exp p))).
  rewrite (split_plain_last _ (plain_bits_of secret)).
  rewrite String.eqb_refl. cbn [negb].
  rewrite of_bits_bits_of, !text_z_z_text.
  apply Z.leb_gt in Ht. rewrite Ht. now destruct p.
Qed.

Lemma sealed_sign_compact (p : Payload) (secret : string) :
  presentable (Sealed.sign p secret) = true.
Proof.
  unfold presentable, Sealed.sign. rewrite truthy_app_cons. cbn [andb].
  rewrite !no_space_app. cbn [no_space].
  rewrite !no_space_app. cbn [no_space].
  rewrite !no_space_app. cbn [no_space].
  rewrite !(plain_no_space _ (plain_bits_of _)).
  rewrite !(plain_no_space _ (plain_z_text _)).
  reflexivity.
Qed.

Lemma sealed_contract : JwtContract Sealed.jwt.
Proof.
  split; [exact sealed_verify_sign | exact sealed_sign_compact].
Qed.

End SealedFacts.

(** * The properties at work on the small deployment *)

Section Examples.

Local Abbreviation gate := (protect Demo.env Demo.jwt Demo.models Demo.t0).

(** The deleted user's rejection does not carry the message of the
    missing-token rejection: the 401s of [protect] are not all alike. *)
Lemma protect_messages_differ :
  fails Demo.env Demo.jwt Demo.models Demo.t0 Cases.anonymous NoToken
  /\ fails Demo.env Demo.jwt Demo.models Demo.t0 Cases.ghost_in SubjectMissing
  /\ exists e1 e2,
       gate Cases.anonymous = (Value (NextErr e1), Cases.anonymous)
       /\ gate Cases.ghost_in = (Value (NextErr e2), Cases.ghost_in)
       /\ message e1 = UNAUTHORIZED
       /\ message e2 <> UNAUTHORIZED.
Proof.
  split; [|split].
  - apply fails_no_token. reflexivity.
  - apply (fails_missing Demo.env Demo.jwt Demo.models Demo.t0 Cases.ghost_in
             Demo.ghost_token Demo.ghost_payload); vm_compute; reflexivity.
  - exists (mkErrorResponse UNAUTHORIZED 401),
           (mkErrorResponse "Token is not associated with a user anymore." 401).
    split; [vm_compute; reflexivity|].
    split; [vm_compute; reflexivity|].
    split; [reflexivity|].
    simpl. discriminate.
Qed.

(** The two requests of the repository's route tests: no header, and
    [Bearer InvalidToken]. *)
Example protect_route_tests :
  fst (gate Cases.anonymous) = Value (NextErr (mkErrorResponse UNAUTHORIZED 401))
  /\ fst (gate (Demo.start (Demo.bearer "InvalidToken") Demo.store))
     = Value (NextErr (mkErrorResponse UNAUTHORIZED 401)).
Proof. split; vm_compute; reflexivity. Qed.

(** An expired token and a token signed with another secret. *)
Example protect_refused_tokens :
  fst (gate (Demo.start (Demo.bearer "u1.1600000000000.1600000000001.s3cret")
                        Demo.store))
  = Value (NextErr (mkErrorResponse UNAUTHORIZED 401))
  /\ fst (gate (Demo.start (Demo.bearer "u1.1690000000000.1800000000000.other")
                           Demo.store))
     = Value (NextErr (mkErrorResponse UNAUTHORIZED 401)).
Proof. split; vm_compute; reflexivity. Qed.

Lemma protect_rejects_401_witness :
  fails Demo.env Demo.jwt Demo.models Demo.t0 Cases.ghost_in SubjectMissing
  /\ gate Cases.ghost_in
     = (Value (NextErr (mkErrorResponse
                          "Token is not associated with a user anymore." 401)),
        Cases.ghost_in).
Proof.
  assert (H : fails Demo.env Demo.jwt Demo.models Demo.t0 Cases.ghost_in SubjectMissing)
    by (apply (fails_missing Demo.env Demo.jwt Demo.models Demo.t0 Cases.ghost_in
                 Demo.ghost_token Demo.ghost_payload); vm_compute; reflexivity).
  split; [exact H|].
  exact (protect_rejects_401 Demo.env Demo.jwt Demo.models Demo.t0
           Cases.ghost_in SubjectMissing H).
Defined.

Lemma authorize_fails_closed_witness :
  user (req Cases.anonymous) = None
  /\ fst (authorize Cases.publishers Cases.anonymous) <> Value Next.
Proof.
  split; [reflexivity|].
  apply (authorize_fails_closed Cases.publishers Cases.anonymous). reflexivity.
Defined.

(** With the store unreachable, a fresh and valid token is answered with
    the generic 401: the storage error is not thrown onwards. *)
Lemma protect_storage_failure_reported_401 :
  jwt_verify Demo.jwt Demo.t0 Demo.alice_token (JWT_SECRET Demo.env)
  = Value (token_payload Demo.env Demo.t0 Demo.alice)
  /\ User_findById Demo.models (db Cases.alice_offline) (_id Demo.alice)
     = Throw (StorageError "connection lost")
  /\ gate Cases.alice_offline
     = (Value (NextErr (mkErrorResponse UNAUTHORIZED 401)), Cases.alice_offline)
  /\ fst (gate Cases.alice_offline) <> Throw (StorageError "connection lost").
Proof.
  split; [vm_compute; reflexivity|].
  split; [vm_compute; reflexivity|].
  split; [vm_compute; reflexivity|].
  vm_compute. discriminate.
Qed.

Lemma protect_storage_failure_is_401_witness :
  gate Cases.alice_offline
  = (Value (NextErr (mkErrorResponse UNAUTHORIZED 401)), Cases.alice_offline).
Proof.
  apply (protect_storage_failure_is_401 Demo.env Demo.jwt Demo.models Demo.t0
           Cases.alice_offline Demo.alice_token
           (token_payload Demo.env Demo.t0 Demo.alice)
           (StorageError "connection lost"));
    vm_compute; reflexivity.
Defined.

Lemma protect_attaches_identity_witness :
  gate Cases.alice_in = (Value Next, on_req (set_user Demo.alice) Cases.alice_in)
  /\ user (req (snd (gate Cases.alice_in))) = Some Demo.alice.
Proof.
  apply (protect_attaches_identity Demo.env Demo.jwt Demo.models Demo.t0
           Cases.alice_in Demo.alice_token
           (token_payload Demo.env Demo.t0 Demo.alice) Demo.alice);
    vm_compute; reflexivity.
Defined.

Lemma authorize_by_membership_witness :
  authorize Cases.publishers (Cases.signed_in Demo.bob ∅)
  = (Value (NextErr (mkErrorResponse
                       "Certain permission is not met to access this resource." 403)),
     Cases.signed_in Demo.bob ∅)
  /\ authorize Cases.publishers (Cases.signed_in Demo.root ∅)
     = (Value Next, Cases.signed_in Demo.root ∅).
Proof.
  split.
  - apply (authorize_by_membership Cases.publishers (Cases.signed_in Demo.bob ∅)
             Demo.bob eq_refl).
    intros H. apply includes_elem_of in H. discriminate H.
  - apply (authorize_by_membership Cases.publishers (Cases.signed_in Demo.root ∅)
             Demo.root eq_refl).
    apply includes_elem_of. reflexivity.
Defined.

Lemma authorize_pass_through_witness :
  authorize Cases.publishers (Cases.signed_in Demo.alice ∅)
  = (Value Next, Cases.signed_in Demo.alice ∅)
  /\ req (snd (authorize Cases.publishers (Cases.signed_in Demo.alice ∅)))
     = req (Cases.signed_in Demo.alice ∅)
  /\ res (snd (authorize Cases.publishers (Cases.signed_in Demo.alice ∅)))
     = res (Cases.signed_in Demo.alice ∅)
  /\ db (snd (authorize Cases.publishers (Cases.signed_in Demo.alice ∅)))
     = db (Cases.signed_in Demo.alice ∅).
Proof.
  apply (authorize_pass_through Cases.publishers (Cases.signed_in Demo.alice ∅)
           Demo.alice eq_refl).
  apply includes_elem_of. reflexivity.
Defined.

Lemma protect_ignores_cookies_witness :
  Cases.token_cookie !! "token" = Some Demo.alice_token
  /\ no_bearer_header (req Cases.anonymous) = true
  /\ gate (on_req (set_cookies Cases.token_cookie) Cases.anonymous)
     = (Value (NextErr (mkErrorResponse UNAUTHORIZED 401)),
        on_req (set_cookies Cases.token_cookie) Cases.anonymous).
Proof.
  split; [vm_compute; reflexivity|]. split; [reflexivity|].
  apply (protect_ignores_cookies Demo.env Demo.jwt Demo.models Demo.t0
           Cases.anonymous Cases.token_cookie).
  reflexivity.
Defined.

(** Alice's token, read in the body of the login answer and sent back at
    once as a bearer token, gets Alice attached. *)
Lemma issue_then_verify_witness :
  exists t,
    body_token (sendTokenResponse Demo.env Sealed.jwt Demo.t0 Demo.alice 200 Demo.blank)
    = Some t
    /\ cookie_token
         (sendTokenResponse Demo.env Sealed.jwt Demo.t0 Demo.alice 200 Demo.blank)
       = Some t
    /\ protect Demo.env Sealed.jwt Demo.models Demo.t0
         (Demo.start (Demo.bearer t) Demo.store)
       = (Value Next, on_req (set_user Demo.alice) (Demo.start (Demo.bearer t) Demo.store)).
Proof.
  assert (Hlife : 0 < JWT_COOKIE_EXPIRES Demo.env) by (vm_compute; reflexivity).
  destruct (issue_then_verify Demo.env Sealed.jwt Demo.models Demo.t0
              Demo.alice 200 Demo.blank sealed_contract Hlife)
    as (t & Hbody & Hcookie & _ & Hgate).
  exists t. split; [exact Hbody|]. split; [exact Hcookie|].
  destruct (Hgate (Demo.start (Demo.bearer t) Demo.store) eq_refl) as [_ Hp].
  rewrite Hp. reflexivity.
Defined.

(** The admin [root] owns neither the course [c1] nor the bootcamp [b1];
    [bob] is a plain user who owns neither. *)
Lemma ownership_gate_witness :
  handler Demo.models Update (Cases.signed_in Demo.root {["id" := "c1"]})
  = mutation Demo.models Update Demo.course
      (Cases.signed_in Demo.root {["id" := "c1"]})
  /\ handler Demo.models Create (Cases.signed_in Demo.root {["bootcampID" := "b1"]})
     = mutation Demo.models Create Demo.camp
         (at_check Create Demo.root
            (Cases.signed_in Demo.root {["bootcampID" := "b1"]}))
  /\ handler Demo.models Delete (Cases.signed_in Demo.bob {["id" := "c1"]})
     = (Value (NextErr (mkErrorResponse "Permission denied to delete c1." 403)),
        Cases.signed_in Demo.bob {["id" := "c1"]}).
Proof.
  split; [|split].
  - refine (proj1 (proj1 (ownership_gate Demo.models Update
             (Cases.signed_in Demo.root {["id" := "c1"]}) Demo.root Demo.course
             eq_refl _) eq_refl)).
    vm_compute; reflexivity.
  - refine (proj1 (proj1 (ownership_gate Demo.models Create
             (Cases.signed_in Demo.root {["bootcampID" := "b1"]}) Demo.root Demo.camp
             eq_refl _) eq_refl)).
    vm_compute; reflexivity.
  - refine (proj2 (ownership_gate Demo.models Delete
             (Cases.signed_in Demo.bob {["id" := "c1"]}) Demo.bob Demo.course
             eq_refl _) _ _).
    + vm_compute; reflexivity.
    + discriminate.
    + discriminate.
Defined.

End Examples.

(** * More of the gate and of the controllers *)

(** ** What [split] returns *)

Lemma split_cons (sep : ascii) (s : string) :
  exists p ps, Js.split sep s = p :: ps.
Proof.
  destruct s as [|c s]; simpl; [eauto|].
  destruct (Ascii.eqb c sep); [eauto|].
  destruct (Js.split sep s); eauto.
Qed.

Lemma join_split (sep : ascii) (s : string) :
  join (String sep EmptyString) (Js.split sep s) = s.
Proof.
  induction s as [|c s IH]; [reflexivity|].
  simpl. destruct (Ascii.eqb c sep) eqn:Hc.
  - apply Ascii.eqb_eq in Hc. subst c.
    destruct (split_cons sep s) as (p & ps & Hs).
    rewrite Hs in IH |- *. simpl. simpl in IH. now rewrite IH.
  - destruct (Js.split sep s) as [|w [|w' ws]]; simpl in IH |- *.
    + now subst s.
    + now subst s.
    + now rewrite <- IH.
Qed.

Lemma append_empty_r (s : string) : s +:+ "" = s.
Proof.
  induction s as [|c s IH]; [reflexivity|].
  change (String c (s +:+ "") = String c s). now rewrite IH.
Qed.

Lemma split_pieces (s : string) :
  Forall (fun p => no_space p = true) (Js.split " " s).
Proof.
  induction s as [|c s IH]; simpl; [repeat constructor|].
  destruct (Ascii.eqb c " ") eqn:Hc.
  - constructor; [reflexivity | exact IH].
  - destruct (Js.split " " s) as [|w ws]; [repeat constructor; simpl; now rewrite Hc|].
    inversion IH as [|? ? Hw Hws]; subst.
    constructor; [simpl; now rewrite Hc, Hw | exact Hws].
Qed.

(** ** The gate as a chain *)

Section ChainFacts.
Context {DB : Type}.
Variable env : ProcessEnv.
Variable jwt : Jsonwebtoken.
Variable models : Models DB.
Variable now : Z.

Local Abbreviation gate := (protect env jwt models now).

(** When [protect] calls [next()], it has attached a user. *)
Lemma protect_next_inv (s : State DB) :
  fst (gate s) = Value Next ->
  exists u, gate s = (Value Next, on_req (set_user u) s).
Proof.
  destruct (Js.truthy_opt (bearer_token (req s))) eqn:Htok.
  - destruct (bearer_token (req s)) as [t|] eqn:Ht; [|discriminate].
    simpl in Htok.
    destruct (jwt_verify jwt now t (JWT_SECRET env)) as [d|e] eqn:Hv.
    + rewrite (protect_lookup env jwt models now s t d Ht Htok Hv).
      destruct (User_findById models (db s) (id d)) as [[u|]|e];
        simpl; intros H; try discriminate H. eauto.
    + rewrite (protect_verify_throws env jwt models now s t e Ht Htok Hv).
      discriminate.
  - rewrite (protect_no_token env jwt models now s Htok). discriminate.
Qed.

(** X1. The token [protect] hands to [jwt.verify] is the text between the
    first and the second space of an [Authorization] header that begins
    with ["Bearer"]: it never holds a space, and whatever follows a second
    space is dropped. *)
Theorem bearer_token_shape (r : Request) (t : string) :
  bearer_token r = Some t ->
  exists a pre post,
    authorization (headers r) = Some a
    /\ Js.startsWith a "Bearer" = true
    /\ a = pre +:+ " " +:+ t +:+ post
    /\ no_space pre = true
    /\ no_space t = true
    /\ (post = "" \/ exists q, post = " " +:+ q).
Proof.
  unfold bearer_token.
  destruct (authorization (headers r)) as [a|]; [|discriminate].
  destruct (Js.truthy a && Js.startsWith a "Bearer") eqn:Hb; [|discriminate].
  apply andb_prop in Hb as [_ Hb]. intros Hl.
  pose proof (join_split " " a) as Hj. pose proof (split_pieces a) as Hp.
  destruct (Js.split " " a) as [|p0 [|p1 ps]]; try discriminate Hl.
  injection Hl as Hl. rewrite Hl in Hj, Hp.
  apply Forall_cons in Hp as [Hp0 Hp]. apply Forall_cons in Hp as [Ht _].
  exists a, p0. destruct ps as [|p2 ps].
  - exists "". repeat split; auto.
    rewrite <- Hj at 1. simpl. now rewrite append_empty_r.
  - exists (" " +:+ join " " (p2 :: ps)). repeat split; eauto.
Qed.

(** X2. After a [protect] that passed, [authorize] never throws: it passes or
    rejects with its 403, and leaves the state as [protect] made it. *)
Theorem authorize_after_protect (roles : list string) (s : State DB) :
  fst (gate s) = Value Next ->
  exists sig,
    authorize roles (snd (gate s)) = (Value sig, snd (gate s))
    /\ (sig = Next
        \/ sig = NextErr (mkErrorResponse
                            "Certain permission is not met to access this resource."
                            403)).
Proof.
  intros H. destruct (protect_next_inv s H) as [u Hu]. rewrite Hu. simpl.
  rewrite (authorize_with_identity roles (on_req (set_user u) s) u eq_refl).
  destruct (Js.includes roles (role u)); eauto.
Qed.

(** X3. Running [protect] again on the state it left answers the same and
    changes nothing more. *)
Theorem protect_idempotent (s : State DB) :
  gate (snd (gate s)) = gate s.
Proof.
  destruct (Js.truthy_opt (bearer_token (req s))) eqn:Htok.
  - destruct (bearer_token (req s)) as [t|] eqn:Ht; [|discriminate].
    simpl in Htok.
    destruct (jwt_verify jwt now t (JWT_SECRET env)) as [d|e] eqn:Hv.
    + rewrite (protect_lookup env jwt models now s t d Ht Htok Hv).
      destruct (User_findById models (db s) (id d)) as [[u|]|e] eqn:Hu; simpl.
      * rewrite (protect_lookup env jwt models now (on_req (set_user u) s) t d
                   Ht Htok Hv).
        simpl. rewrite Hu. reflexivity.
      * rewrite (protect_lookup env jwt models now s t d Ht Htok Hv), Hu.
        reflexivity.
      * rewrite (protect_lookup env jwt models now s t d Ht Htok Hv), Hu.
        reflexivity.
    + rewrite (protect_verify_throws env jwt models now s t e Ht Htok Hv). simpl.
      now rewrite (protect_verify_throws env jwt models now s t e Ht Htok Hv).
  - rewrite (protect_no_token env jwt models now s Htok). simpl.
    now rewrite (protect_no_token env jwt models now s Htok).
Qed.

End ChainFacts.

(** ** The course handlers beyond the ownership check *)

Section CourseFacts.
Context {DB : Type}.
Variable models : Models DB.

(** X4. Without an identity on the request, each of the three handlers throws
    while destructuring [req.user]: before any lookup, and before
    [createCourse] has written to [req.body]. *)
Theorem course_handlers_need_identity (k : Mutation) (s : State DB) :
  user (req s) = None ->
  handler models k s
  = (Throw (TypeError "Cannot destructure property '_id' of 'req.user'"), s).
Proof.
  intros Hu.
  assert (Hi : identity s
               = (Throw (TypeError "Cannot destructure property '_id' of 'req.user'"), s))
    by (unfold identity, mbind, Run_bind, get; now rewrite Hu).
  destruct k; simpl;
    [unfold createCourse | unfold updateCourse | unfold deleteCourse];
    exact (bind_throw _ _ _ _ _ Hi).
Qed.

(** X5. When the guarded resource does not exist, each handler answers 404
    with the message naming the identifier of the route, for every role,
    admin included, and the store is not written. *)
Theorem course_missing_is_404 (k : Mutation) (s : State DB) (u : User) :
  user (req s) = Some u ->
  guarded_resource models k s = Value None ->
  handler models k s
  = (Value (NextErr (mkErrorResponse (missing k (req s)) 404)), at_check k u s)
  /\ db (snd (handler models k s)) = db s.
Proof.
  intros Hu Hdoc.
  assert (H : handler models k s
              = (Value (NextErr (mkErrorResponse (missing k (req s)) 404)),
                 at_check k u s)).
  { destruct k; simpl in Hdoc |- *;
      [unfold createCourse | unfold updateCourse | unfold deleteCourse];
      rewrite (bind_value _ _ _ _ _ (identity_some s u Hu));
      unfold mbind, Run_bind, get, modify, db_read; simpl; rewrite Hdoc;
      reflexivity. }
  rewrite H. split; [reflexivity|]. destruct k; reflexivity.
Qed.

(** X6. With an identity and the guarded resource found, the 403 is answered
    exactly when the identity is neither the owner nor an admin; an owner
    who is not an admin goes on to the mutation like an admin does. *)
Theorem course_403_exactly (k : Mutation) (s : State DB) (u : User) (doc : Document) :
  user (req s) = Some u ->
  guarded_resource models k s = Value (Some doc) ->
  (handler models k s
   = (Value (NextErr (mkErrorResponse (denial k s) 403)), at_check k u s)
   <-> doc_user doc <> _id u /\ role u <> "admin")
  /\ (doc_user doc = _id u ->
      handler models k s = mutation models k doc (at_check k u s)).
Proof.
  intros Hu Hdoc. rewrite (handler_check models k s u doc Hu Hdoc).
  unfold equals.
  assert (Hmut : mutation models k doc (at_check k u s)
                 <> (Value (NextErr (mkErrorResponse (denial k s) 403)),
                     at_check k u s)).
  { intros H.
    apply (mutation_no_rejection models k doc (at_check k u s)
             (mkErrorResponse (denial k s) 403)).
    now rewrite H. }
  destruct (String.eqb_spec (doc_user doc) (_id u)) as [Hown|Hown];
    destruct (String.eqb_spec (role u) "admin") as [Hrole|Hrole]; simpl.
  - split; [split|]; [intros H; contradiction | intros [H _]; contradiction | auto].
  - split; [split|]; [intros H; contradiction | intros [H _]; contradiction | auto].
  - split; [split|]; [intros H; contradiction | intros [_ H]; contradiction
                      | intros H; contradiction].
  - split; [split|]; [auto | auto | intros H; contradiction].
Qed.

(** X7. What [createCourse] hands to [Course.create] always names the
    identity as the course's user and the route's bootcamp, whatever the
    client put under those keys; every other key of the body is passed on
    as sent. *)
Theorem createCourse_stamps_owner (s : State DB) (u : User) (doc : Document) :
  user (req s) = Some u ->
  Bootcamp_findById models (db s) (params (req s) !! "bootcampID")
  = Value (Some doc) ->
  doc_user doc = _id u \/ role u = "admin" ->
  exists b : gmap string JsVal,
    b !! "user" = Some (JStr (_id u))
    /\ b !! "bootcamp" = Some (Js.of_opt (params (req s) !! "bootcampID"))
    /\ (forall key : string,
          key <> "user" -> key <> "bootcamp" -> b !! key = body (req s) !! key)
    /\ createCourse models s
       = match Course_create models (db s) b with
         | (Value c, d) =>
             (Value Sent,
              mkState (set_body "user" (JStr (_id u))
                         (set_body "bootcamp"
                            (Js.of_opt (params (req s) !! "bootcampID")) (req s)))
                      (json (JObj [("success", JBool true); ("data", doc_json c)])
                            (status 201 (res s)))
                      d)
         | (Throw e, d) =>
             (Throw e,
              mkState (set_body "user" (JStr (_id u))
                         (set_body "bootcamp"
                            (Js.of_opt (params (req s) !! "bootcampID")) (req s)))
                      (res s) d)
         end.
Proof.
  intros Hu Hdoc Hpass.
  exists (<["user" := JStr (_id u)]>
            (<["bootcamp" := Js.of_opt (params (req s) !! "bootcampID")]>
               (body (req s)))).
  split; [apply lookup_insert_eq|].
  split; [rewrite lookup_insert_ne by discriminate; apply lookup_insert_eq|].
  split.
  { intros key H1 H2. rewrite !lookup_insert_ne by congruence. reflexivity. }
  change (createCourse models s) with (handler models Create s).
  rewrite (handler_check models Create s u doc Hu Hdoc).
  assert (Hgo : negb (equals (doc_user doc) (_id u))
                && negb (String.eqb (role u) "admin") = false).
  { destruct Hpass as [H|H]; apply String.eqb_eq in H; unfold equals; rewrite H;
      [reflexivity | apply andb_false_r]. }
  rewrite Hgo. simpl.
  unfold mbind, Run_bind, get, db_write, respond, modify. simpl.
  destruct (Course_create models (db s) _) as [[c|e] d]; reflexivity.
Qed.

(** X8. [getCourse] is public and read-only: its answer depends on the
    route's [id] and on the store alone, so not on the identity, the
    headers, the cookies or the body, and it changes neither the request
    nor the store. *)
Theorem getCourse_public (s s' : State DB) :
  params (req s) !! "id" = params (req s') !! "id" ->
  db s = db s' ->
  fst (getCourse models s) = fst (getCourse models s')
  /\ (res s = res s' ->
      res (snd (getCourse models s)) = res (snd (getCourse models s')))
  /\ req (snd (getCourse models s)) = req s
  /\ db (snd (getCourse models s)) = db s.
Proof.
  intros Hid Hdb. unfold getCourse, mbind, Run_bind, get, db_read, respond, modify.
  simpl. rewrite <- Hid, <- Hdb.
  destruct (Course_findById models (db s) (params (req s) !! "id")) as [[c|]|e];
    simpl; repeat split; auto; now intros ->.
Qed.

End CourseFacts.

(** ** The auth controller *)

Section AuthControllerFacts.
Context {W : Type}.
Variable env : ProcessEnv.
Variable jwt : Jsonwebtoken.
Variable models : Models W.
Variable accounts : Accounts W.
Variable now : Z.
Variables protocol host : string.

Local Abbreviation login := (authLogin env jwt accounts now).
Local Abbreviation change_password := (authUpdatePassword env jwt accounts now).
Local Abbreviation reset_password := (authResetPassword env jwt accounts now).
Local Abbreviation register := (authRegister env jwt accounts now).

Lemma current_id_some (s : State W) (u : User) :
  user (req s) = Some u -> current_id s = (Value (_id u), s).
Proof. intros Hu. unfold current_id, mbind, Run_bind, get. now rewrite Hu. Qed.

(** X9. [authLogin], [authForgotPassword], [authUpdateInfo] and
    [authUpdatePassword] check the body first: when a field they require
    is missing or falsy they answer 400 with their message and do nothing
    else, whatever the store holds and whether or not the request carries
    an identity. *)
Theorem forms_validate_first (f : Form) (s : State W) (k : string) :
  k ∈ required f ->
  JsV.truthy (field (req s) k) = false ->
  form_handler env jwt models accounts now protocol host f s
  = (Value (NextErr (mkErrorResponse (complaint f) 400)), s).
Proof.
  intros Hk Hf.
  destruct f; simpl in Hk |- *;
    [unfold authLogin | unfold authForgotPassword
     | unfold authUpdateInfo | unfold authUpdatePassword];
    unfold mbind, Run_bind, get; simpl;
    repeat (apply elem_of_cons in Hk as [->|Hk]);
    try (now apply elem_of_nil in Hk);
    rewrite Hf; simpl; rewrite ?orb_true_r; reflexivity.
Qed.

(** X10. [authLogin] answers an unknown address and a wrong password alike:
    the same 401 with the same message, and nothing written. *)
Theorem authLogin_bad_credentials (s : State W) :
  JsV.truthy (field (req s) "email") = true ->
  JsV.truthy (field (req s) "password") = true ->
  (User_findOne accounts (db s) (field (req s) "email") true = Value None
   \/ exists a,
        User_findOne accounts (db s) (field (req s) "email") true = Value (Some a)
        /\ isPasswordCorrect accounts a (field (req s) "password") = Value false) ->
  login s = (Value (NextErr (mkErrorResponse "Bad credentials." 401)), s).
Proof.
  intros He Hp H. unfold authLogin, mbind, Run_bind, get, db_read, lift_exc.
  simpl. rewrite He, Hp. simpl.
  destruct H as [H | (a & H & Hpw)]; rewrite H; [reflexivity|].
  rewrite Hpw. reflexivity.
Qed.

(** X11. [authLogin] sends a token exactly when both fields are present, the
    address has an account and the password check on that account says
    yes; the response is then the one [sendTokenResponse] builds for that
    account with status 200, and the store is as it was. *)
Theorem authLogin_issues_exactly (s : State W) :
  (fst (login s) = Value Sent
   <-> exists a,
         JsV.truthy (field (req s) "email") = true
         /\ JsV.truthy (field (req s) "password") = true
         /\ User_findOne accounts (db s) (field (req s) "email") true
            = Value (Some a)
         /\ isPasswordCorrect accounts a (field (req s) "password") = Value true)
  /\ (forall a,
        User_findOne accounts (db s) (field (req s) "email") true = Value (Some a) ->
        fst (login s) = Value Sent ->
        snd (login s)
        = on_res (sendTokenResponse env jwt now (acc_user a) 200) s).
Proof.
  unfold authLogin, issue, mbind, Run_bind, get, db_read, lift_exc, modify. simpl.
  destruct (JsV.truthy (field (req s) "email")) eqn:He;
    destruct (JsV.truthy (field (req s) "password")) eqn:Hp; simpl;
    try (split; [split; [discriminate | intros (a & ? & ? & _); discriminate]
                | intros a _ H; discriminate H]).
  destruct (User_findOne accounts (db s) (field (req s) "email") true)
    as [[a|]|e] eqn:Hf; simpl.
  - destruct (isPasswordCorrect accounts a (field (req s) "password"))
      as [[|]|e] eqn:Hpw; simpl.
    + split; [split; [eauto 6 | reflexivity]|].
      intros a' Ha' _. now injection Ha' as <-.
    + split; [split; [discriminate|]|discriminate].
      intros (a' & _ & _ & Ha' & Hpw'). injection Ha' as <-. congruence.
    + split; [split; [discriminate|]|discriminate].
      intros (a' & _ & _ & Ha' & Hpw'). injection Ha' as <-. congruence.
  - split; [split; [discriminate | intros (a' & _ & _ & Ha' & _); discriminate]
           | discriminate].
  - split; [split; [discriminate | intros (a' & _ & _ & Ha' & _); discriminate]
           | discriminate].
Qed.

(** X12. [authLogout] needs no identity and touches neither the request nor
    the store: it adds a [token] cookie with an empty value that expired
    ten seconds ago, HTTP-only and never marked secure, sets status 204
    and writes no body. *)
Theorem authLogout_expires_cookie (s : State W) :
  exists c,
    authLogout now s
    = (Value Sent,
       mkState (req s)
               (mkResponse 204 (res_cookies (res s) ++ [c]) (res_json (res s)))
               (db s))
    /\ cookie_name c = "token"
    /\ cookie_value c = ""
    /\ expires (cookie_options c) = now - 10000
    /\ expires (cookie_options c) < now
    /\ httpOnly (cookie_options c) = true
    /\ secure (cookie_options c) = false.
Proof.
  eexists. split; [reflexivity|]. simpl. repeat split; lia.
Qed.

(** X13. When the account of the identity is gone from the store,
    [authGetMe] answers 404, while [authUpdatePassword], which calls a
    method on the result without looking at it, throws; neither writes. *)
Theorem account_gone (s : State W) (u : User) :
  user (req s) = Some u ->
  User_findById models (db s) (_id u) = Value None ->
  User_findById_password accounts (db s) (_id u) = Value None ->
  JsV.truthy (field (req s) "oldPassword") = true ->
  JsV.truthy (field (req s) "newPassword") = true ->
  authGetMe models accounts s
  = (Value (NextErr (mkErrorResponse "User not found." 404)), s)
  /\ change_password s
     = (Throw (TypeError "Cannot read property 'isPasswordCorrect' of null"), s).
Proof.
  intros Hu Hg Hp Ho Hn. split.
  - unfold authGetMe. rewrite (bind_value _ _ _ _ _ (current_id_some s u Hu)).
    unfold mbind, Run_bind, db_read. now rewrite Hg.
  - unfold authUpdatePassword, mbind at 1, Run_bind, get. simpl.
    rewrite Ho, Hn. simpl.
    rewrite (bind_value _ _ _ _ _ (current_id_some s u Hu)).
    unfold mbind, Run_bind, db_read. now rewrite Hp.
Qed.

(** X14. [authUpdatePassword] with a wrong old password answers 401 and
    leaves everything as it was: nothing is saved, no cookie is set. *)
Theorem authUpdatePassword_wrong_old (s : State W) (u : User) (a : Account) :
  user (req s) = Some u ->
  JsV.truthy (field (req s) "oldPassword") = true ->
  JsV.truthy (field (req s) "newPassword") = true ->
  User_findById_password accounts (db s) (_id u) = Value (Some a) ->
  isPasswordCorrect accounts a (field (req s) "oldPassword") = Value false ->
  change_password s
  = (Value (NextErr (mkErrorResponse "Incorrect old password." 401)), s).
Proof.
  intros Hu Ho Hn Hf Hpw.
  unfold authUpdatePassword, mbind at 1, Run_bind, get. simpl.
  rewrite Ho, Hn. simpl.
  rewrite (bind_value _ _ _ _ _ (current_id_some s u Hu)).
  unfold mbind, Run_bind, db_read, lift_exc. rewrite Hf, Hpw. reflexivity.
Qed.

(** X15. [authUpdatePassword], once the old password is confirmed, saves the
    account with the new password and nothing else changed, with
    validation on; the token is issued only if that save returned, and a
    save that throws leaves the response untouched. *)
Theorem authUpdatePassword_saves_then_issues (s : State W) (u : User) (a : Account) :
  user (req s) = Some u ->
  JsV.truthy (field (req s) "oldPassword") = true ->
  JsV.truthy (field (req s) "newPassword") = true ->
  User_findById_password accounts (db s) (_id u) = Value (Some a) ->
  isPasswordCorrect accounts a (field (req s) "oldPassword") = Value true ->
  change_password s
  = match save accounts (db s)
            (mkAccount (acc_user a) (field (req s) "newPassword")
                       (resetPasswordToken a) (resetPasswordExpire a))
            true with
    | (Value _, d) =>
        (Value Sent,
         mkState (req s) (sendTokenResponse env jwt now (acc_user a) 200 (res s)) d)
    | (Throw e, d) => (Throw e, mkState (req s) (res s) d)
    end.
Proof.
  intros Hu Ho Hn Hf Hpw.
  unfold authUpdatePassword, mbind at 1, Run_bind, get. simpl.
  rewrite Ho, Hn. simpl.
  rewrite (bind_value _ _ _ _ _ (current_id_some s u Hu)).
  unfold issue, mbind, Run_bind, db_read, db_write, lift_exc, modify, set_password.
  rewrite Hf, Hpw. simpl.
  destruct (save accounts (db s) _ true) as [[[]|e] d]; reflexivity.
Qed.

End AuthControllerFacts.

(** ** Password reset and registration *)

Section ResetFacts.
Context {W : Type}.
Variable env : ProcessEnv.
Variable jwt : Jsonwebtoken.
Variable accounts : Accounts W.
Variable now : Z.
Variables protocol host : string.

Local Abbreviation forgot := (authForgotPassword accounts protocol host).
Local Abbreviation reset_password := (authResetPassword env jwt accounts now).
Local Abbreviation register := (authRegister env jwt accounts now).

(** X16. Whatever [authForgotPassword] does, the reset token does not travel
    in the HTTP answer: the response is either untouched or the fixed
    [{ success: true, data: {} }] with status 200, and an error handed to
    [next] is one of three: the 400, the 404 naming the address that was
    sent, the 500. *)
Theorem authForgotPassword_answer_has_no_token (s : State W) :
  (res (snd (forgot s)) = res s
   \/ res (snd (forgot s))
      = json (JObj [("success", JBool true); ("data", JObj [])])
             (status 200 (res s)))
  /\ (forall err,
        fst (forgot s) = Value (NextErr err) ->
        err = mkErrorResponse "Email address is required." 400
        \/ err = mkErrorResponse
                   (JsV.template (field (req s) "email")
                      +:+ " is not associated with an existing user.") 404
        \/ err = mkErrorResponse "Error sending password reset email." 500).
Proof.
  unfold authForgotPassword, mbind, Run_bind, get, db_read, db_write, try_catch,
    respond, modify. simpl.
  destruct (JsV.truthy (field (req s) "email")); simpl.
  2: { split; [now left|]. intros err H. injection H as <-. now left. }
  destruct (User_findOne accounts (db s) (field (req s) "email") false)
    as [[a|]|e]; simpl.
  - destruct (save accounts (db s) (snd (getResetPasswordToken accounts a)) false)
      as [[[]|e] d1]; simpl.
    + destruct (sendEmail accounts d1 _) as [[[]|e] d2]; simpl.
      * split; [now right | discriminate].
      * destruct (save accounts d2 _ false) as [[[]|e'] d3]; simpl.
        -- split; [now left|]. intros err H. injection H as <-. now right; right.
        -- split; [now left | discriminate].
    + split; [now left | discriminate].
  - split; [now left|]. intros err H. injection H as <-. now right; left.
  - split; [now left | discriminate].
Qed.

(** X17. Once [authForgotPassword] has saved the account with its fresh reset
    token, it mails the account's address a text ending in the URL made
    of the protocol, the host, the reset path and the raw token.  Only if
    the mail went out is the 200 sent; if sending throws, the account is
    saved once more with both reset fields cleared, and the answer is the
    500 (or what that second save throws). *)
Theorem authForgotPassword_mail (s : State W) (a : Account) (d1 : W) :
  JsV.truthy (field (req s) "email") = true ->
  User_findOne accounts (db s) (field (req s) "email") false = Value (Some a) ->
  save accounts (db s) (snd (getResetPasswordToken accounts a)) false
  = (Value tt, d1) ->
  forgot s
  = match sendEmail accounts d1
            (mkEmail (email (acc_user (snd (getResetPasswordToken accounts a))))
               "Password Reset Email"
               ("Please make a PUT request to the following url." +:+ newline
                  +:+ protocol +:+ "://" +:+ host
                  +:+ "/api/v1/auth/reset-password/"
                  +:+ fst (getResetPasswordToken accounts a))) with
    | (Value _, d2) =>
        (Value Sent,
         mkState (req s)
                 (json (JObj [("success", JBool true); ("data", JObj [])])
                       (status 200 (res s)))
                 d2)
    | (Throw _, d2) =>
        match save accounts d2
                (mkAccount (acc_user (snd (getResetPasswordToken accounts a)))
                           (password (snd (getResetPasswordToken accounts a)))
                           None None)
                false with
        | (Value _, d3) =>
            (Value (NextErr (mkErrorResponse
                               "Error sending password reset email." 500)),
             mkState (req s) (res s) d3)
        | (Throw e, d3) => (Throw e, mkState (req s) (res s) d3)
        end
    end.
Proof.
  intros He Hf Hs.
  unfold authForgotPassword, mbind, Run_bind, get, db_read, db_write, try_catch,
    respond, modify, clear_reset. simpl.
  rewrite He. simpl. rewrite Hf. simpl. rewrite Hs. simpl.
  destruct (sendEmail accounts d1 _) as [[[]|e] d2]; simpl; [reflexivity|].
  destruct (save accounts d2 _ false) as [[[]|e'] d3]; reflexivity.
Qed.

(** X18. [authResetPassword] looks the account up by the SHA-256 digest of the
    token in the route and the clock, never by the raw token.  Without a
    match it answers 400 and changes nothing.  With a match it saves the
    account with the body's password and both reset fields cleared, so
    that the token cannot be used again, and issues the token response
    only if that save returned. *)
Theorem authResetPassword_by_digest (s : State W) (raw : string) :
  params (req s) !! "resetToken" = Some raw ->
  reset_password s
  = match User_findOne_reset accounts (db s) (sha256_hex accounts raw) now with
    | Value None =>
        (Value (NextErr (mkErrorResponse "Invalid token provided." 400)), s)
    | Value (Some a) =>
        match save accounts (db s)
                (mkAccount (acc_user a) (field (req s) "password") None None)
                true with
        | (Value _, d) =>
            (Value Sent,
             mkState (req s)
                     (sendTokenResponse env jwt now (acc_user a) 200 (res s)) d)
        | (Throw e, d) => (Throw e, mkState (req s) (res s) d)
        end
    | Throw e => (Throw e, s)
    end.
Proof.
  intros Hr.
  unfold authResetPassword, issue, mbind, Run_bind, get, db_read, db_write, modify,
    clear_reset, set_password. simpl. rewrite Hr.
  destruct (User_findOne_reset accounts (db s) (sha256_hex accounts raw) now)
    as [[a|]|e]; simpl; try reflexivity.
  destruct (save accounts (db s) _ true) as [[[]|e] d]; reflexivity.
Qed.

(** X19. Of the body, [authRegister] reads the four fields [name], [email],
    [password] and [role] and nothing else: two requests that agree on
    them, on the same store and response, get the same answer, the same
    response and the same store.  When [User.create] throws, no cookie has
    been set. *)
Theorem authRegister_reads_four_fields (s s' : State W) :
  (forall k, k ∈ ["name"; "email"; "password"; "role"] ->
             field (req s) k = field (req s') k) ->
  db s = db s' ->
  res s = res s' ->
  fst (register s) = fst (register s')
  /\ res (snd (register s)) = res (snd (register s'))
  /\ db (snd (register s)) = db (snd (register s'))
  /\ (forall e, fst (register s) = Throw e -> res (snd (register s)) = res s).
Proof.
  intros Hk Hdb Hres.
  unfold authRegister, issue, mbind, Run_bind, get, db_write, modify. simpl.
  rewrite <- Hdb, <- Hres.
  rewrite <- (Hk "name"), <- (Hk "email"), <- (Hk "password"), <- (Hk "role")
    by (repeat constructor).
  destruct (User_create accounts (db s) _ _ _ _) as [[a|e] d]; simpl;
    repeat split; auto; discriminate.
Qed.

End ResetFacts.

(** ** Updating one's own details *)

Section InfoFacts.
Context {W : Type}.
Variable models : Models W.
Variable accounts : Accounts W.

(** X20. [authUpdateInfo] addresses the account of the identity and no other:
    the lookup and the update are both keyed by [req.user.id], whatever
    identifiers the body names, and the update receives the body whole.
    A vanished account is answered with 404 and nothing is written. *)
Theorem authUpdateInfo_updates_own_account (s : State W) (u : User) :
  user (req s) = Some u ->
  JsV.truthy (field (req s) "name") = true ->
  JsV.truthy (field (req s) "email") = true ->
  authUpdateInfo models accounts s
  = match User_findById models (db s) (_id u) with
    | Value None => (Value (NextErr (mkErrorResponse "User not found." 404)), s)
    | Value (Some _) =>
        match User_findByIdAndUpdate accounts (db s) (_id u) (body (req s)) with
        | (Value updated, d) =>
            (Value Sent,
             mkState (req s)
                     (json (JObj [("success", JBool true);
                                  ("data",
                                   from_option (toJSON accounts) JNull updated)])
                           (status 200 (res s)))
                     d)
        | (Throw e, d) => (Throw e, mkState (req s) (res s) d)
        end
    | Throw e => (Throw e, s)
    end.
Proof.
  intros Hu Hn He.
  unfold authUpdateInfo, mbind at 1, Run_bind, get. simpl.
  rewrite Hn, He. simpl.
  rewrite (bind_value _ _ _ _ _ (current_id_some s u Hu)).
  unfold mbind, Run_bind, db_read, db_write, respond, modify.
  destruct (User_findById models (db s) (_id u)) as [[u'|]|e]; try reflexivity.
  simpl.
  destruct (User_findByIdAndUpdate accounts (db s) (_id u) (body (req s)))
    as [[updated|e] d]; reflexivity.
Qed.

End InfoFacts.

(** * The further properties at work on the small deployment *)

Section MoreExamples.

Local Abbreviation gate := (protect Demo.env Demo.jwt Demo.models Demo.t0).
Local Abbreviation login := (authLogin Demo.env Demo.jwt Office.accounts Demo.t0).
Local Abbreviation change_password :=
  (authUpdatePassword Demo.env Demo.jwt Office.accounts Demo.t0).
Local Abbreviation forgot :=
  (authForgotPassword Office.accounts "https" "dev.example").
Local Abbreviation reset_password :=
  (authResetPassword Demo.env Demo.jwt Office.accounts Demo.t0).
Local Abbreviation register :=
  (authRegister Demo.env Demo.jwt Office.accounts Demo.t0).

Lemma bearer_token_shape_witness :
  bearer_token (Demo.request (Some "Bearer abc def")) = Some "abc"
  /\ exists a pre post,
       authorization (headers (Demo.request (Some "Bearer abc def"))) = Some a
       /\ Js.startsWith a "Bearer" = true
       /\ a = pre +:+ " " +:+ "abc" +:+ post
       /\ no_space pre = true
       /\ no_space "abc" = true
       /\ (post = "" \/ exists q, post = " " +:+ q).
Proof.
  split; [reflexivity|].
  apply (bearer_token_shape (Demo.request (Some "Bearer abc def")) "abc").
  reflexivity.
Defined.

Lemma authorize_after_protect_witness :
  fst (gate Cases.alice_in) = Value Next
  /\ exists sig,
       authorize Cases.publishers (snd (gate Cases.alice_in))
       = (Value sig, snd (gate Cases.alice_in))
       /\ (sig = Next
           \/ sig = NextErr (mkErrorResponse
                               "Certain permission is not met to access this resource."
                               403)).
Proof.
  assert (H : fst (gate Cases.alice_in) = Value Next) by (vm_compute; reflexivity).
  split; [exact H|].
  exact (authorize_after_protect Demo.env Demo.jwt Demo.models Demo.t0
           Cases.publishers Cases.alice_in H).
Defined.

Lemma course_handlers_need_identity_witness :
  handler Demo.models Create Cases.anonymous
  = (Throw (TypeError "Cannot destructure property '_id' of 'req.user'"),
     Cases.anonymous).
Proof.
  apply (course_handlers_need_identity Demo.models Create Cases.anonymous).
  reflexivity.
Defined.

Lemma course_missing_is_404_witness :
  missing Update (req (Cases.signed_in Demo.root {["id" := "c9"]}))
  = "Course with ID c9 is not found."
  /\ handler Demo.models Update (Cases.signed_in Demo.root {["id" := "c9"]})
     = (Value (NextErr (mkErrorResponse
                          (missing Update
                             (req (Cases.signed_in Demo.root {["id" := "c9"]})))
                          404)),
        at_check Update Demo.root (Cases.signed_in Demo.root {["id" := "c9"]}))
  /\ db (snd (handler Demo.models Update
                (Cases.signed_in Demo.root {["id" := "c9"]})))
     = db (Cases.signed_in Demo.root {["id" := "c9"]}).
Proof.
  split; [vm_compute; reflexivity|].
  apply (course_missing_is_404 Demo.models Update
           (Cases.signed_in Demo.root {["id" := "c9"]}) Demo.root eq_refl).
  vm_compute; reflexivity.
Defined.

(** Alice owns the course [c1] and is no admin. *)
Lemma course_403_exactly_witness :
  handler Demo.models Delete (Cases.signed_in Demo.alice {["id" := "c1"]})
  = mutation Demo.models Delete Demo.course
      (at_check Delete Demo.alice (Cases.signed_in Demo.alice {["id" := "c1"]})).
Proof.
  refine (proj2 (course_403_exactly Demo.models Delete
                   (Cases.signed_in Demo.alice {["id" := "c1"]})
                   Demo.alice Demo.course eq_refl _) eq_refl).
  vm_compute; reflexivity.
Defined.

Lemma createCourse_stamps_owner_witness :
  body (req Office.alice_adds) !! "user" = Some (JStr "u3")
  /\ exists b : gmap string JsVal,
       b !! "user" = Some (JStr "u1")
       /\ b !! "bootcamp" = Some (JStr "b1")
       /\ b !! "title" = Some (JStr "Rocq 101").
Proof.
  split; [vm_compute; reflexivity|].
  destruct (createCourse_stamps_owner Demo.models Office.alice_adds
              Demo.alice Demo.camp eq_refl)
    as (b & Hu & Hb & Hrest & _).
  - vm_compute; reflexivity.
  - left. reflexivity.
  - exists b. split; [exact Hu|]. split.
    + rewrite Hb. vm_compute; reflexivity.
    + rewrite (Hrest "title") by discriminate. vm_compute; reflexivity.
Defined.

Lemma getCourse_public_witness :
  fst (getCourse Demo.models (Cases.signed_in Demo.bob {["id" := "c1"]}))
  = fst (getCourse Demo.models
           (Demo.start (mkRequest (mkHeaders (Some "Bearer junk"))
                                  Cases.token_cookie {["id" := "c1"]} ∅ None)
                       Demo.store)).
Proof.
  refine (proj1 (getCourse_public Demo.models
                   (Cases.signed_in Demo.bob {["id" := "c1"]})
                   (Demo.start (mkRequest (mkHeaders (Some "Bearer junk"))
                                          Cases.token_cookie {["id" := "c1"]} ∅ None)
                               Demo.store) _ eq_refl)).
  vm_compute; reflexivity.
Defined.

(** No identity, and only the old password in the body. *)
Lemma forms_validate_first_witness :
  form_handler Demo.env Demo.jwt Office.models Office.accounts Demo.t0
    "https" "dev.example" PasswordForm
    (Office.start (Office.request None ∅ {["oldPassword" := JStr "x"]}) Office.world)
  = (Value (NextErr (mkErrorResponse "Please enter old and new passwords." 400)),
     Office.start (Office.request None ∅ {["oldPassword" := JStr "x"]}) Office.world).
Proof.
  apply (forms_validate_first Demo.env Demo.jwt Office.models Office.accounts
           Demo.t0 "https" "dev.example" PasswordForm _ "newPassword").
  - apply list_elem_of_further, list_elem_of_here.
  - vm_compute; reflexivity.
Defined.

Lemma authLogin_bad_credentials_witness :
  login (Office.attempt "nobody@example.com" "x")
  = (Value (NextErr (mkErrorResponse "Bad credentials." 401)),
     Office.attempt "nobody@example.com" "x")
  /\ login (Office.attempt "alice@example.com" "guess")
     = (Value (NextErr (mkErrorResponse "Bad credentials." 401)),
        Office.attempt "alice@example.com" "guess").
Proof.
  split.
  - apply (authLogin_bad_credentials Demo.env Demo.jwt Office.accounts Demo.t0
             (Office.attempt "nobody@example.com" "x"));
      [vm_compute; reflexivity .. |].
    left. vm_compute; reflexivity.
  - apply (authLogin_bad_credentials Demo.env Demo.jwt Office.accounts Demo.t0
             (Office.attempt "alice@example.com" "guess"));
      [vm_compute; reflexivity .. |].
    right. exists Office.alice_account. split; vm_compute; reflexivity.
Defined.

Lemma account_gone_witness :
  authGetMe Office.models Office.accounts Office.root_gone
  = (Value (NextErr (mkErrorResponse "User not found." 404)), Office.root_gone)
  /\ change_password Office.root_gone
     = (Throw (TypeError "Cannot read property 'isPasswordCorrect' of null"),
        Office.root_gone).
Proof.
  apply (account_gone Demo.env Demo.jwt Office.models Office.accounts Demo.t0
           Office.root_gone Demo.root eq_refl);
    vm_compute; reflexivity.
Defined.

Lemma authUpdatePassword_wrong_old_witness :
  change_password (Office.alice_changes "guess")
  = (Value (NextErr (mkErrorResponse "Incorrect old password." 401)),
     Office.alice_changes "guess").
Proof.
  apply (authUpdatePassword_wrong_old Demo.env Demo.jwt Office.accounts Demo.t0
           (Office.alice_changes "guess") Demo.alice Office.alice_account eq_refl);
    vm_compute; reflexivity.
Defined.

Lemma authUpdatePassword_saves_then_issues_witness :
  fst (change_password (Office.alice_changes "correct horse")) = Value Sent
  /\ Office.vault (db (snd (change_password (Office.alice_changes "correct horse"))))
       !! "u1"
     = Some (mkAccount Demo.alice (JStr "new") None None).
Proof.
  rewrite (authUpdatePassword_saves_then_issues Demo.env Demo.jwt Office.accounts
             Demo.t0 (Office.alice_changes "correct horse") Demo.alice
             Office.alice_account eq_refl);
    [split | ..]; vm_compute; reflexivity.
Defined.

(** With the mail down Bob gets the 500 and his account is stored without
    a reset token; with the mail up the answer is sent and the mail holds
    the address to call. *)
Lemma authForgotPassword_mail_witness :
  fst (forgot (Office.bob_forgot Office.world_no_mail))
  = Value (NextErr (mkErrorResponse "Error sending password reset email." 500))
  /\ resetPasswordToken
       <$> (Office.vault (db (snd (forgot (Office.bob_forgot Office.world_no_mail))))
              !! "u2")
     = Some None
  /\ fst (forgot (Office.bob_forgot Office.world)) = Value Sent
  /\ Office.outbox (db (snd (forgot (Office.bob_forgot Office.world))))
     = [mkEmail "bob@example.com" "Password Reset Email"
          ("Please make a PUT request to the following url." +:+ newline
             +:+ "https://dev.example/api/v1/auth/reset-password/reset-u2")].
Proof.
  rewrite (authForgotPassword_mail Office.accounts "https" "dev.example"
             (Office.bob_forgot Office.world_no_mail) Office.bob_account
             Office.world_no_mail);
    [| vm_compute; reflexivity ..].
  rewrite (authForgotPassword_mail Office.accounts "https" "dev.example"
             (Office.bob_forgot Office.world) Office.bob_account Office.world);
    [| vm_compute; reflexivity ..].
  repeat split; vm_compute; reflexivity.
Defined.

Lemma authResetPassword_by_digest_witness :
  fst (reset_password Office.bob_resets) = Value Sent
  /\ Office.vault (db (snd (reset_password Office.bob_resets))) !! "u2"
     = Some (mkAccount Demo.bob (JStr "new") None None).
Proof.
  rewrite (authResetPassword_by_digest Demo.env Demo.jwt Office.accounts Demo.t0
             Office.bob_resets "reset-u2");
    [split | ]; vm_compute; reflexivity.
Defined.

Lemma authRegister_reads_four_fields_witness :
  fst (register (Office.signup {["isAdmin" := JBool true]}))
  = fst (register (Office.signup ∅)).
Proof.
  refine (proj1 (authRegister_reads_four_fields Demo.env Demo.jwt Office.accounts
                   Demo.t0 (Office.signup {["isAdmin" := JBool true]})
                   (Office.signup ∅) _ eq_refl eq_refl)).
  intros k Hk.
  repeat (apply elem_of_cons in Hk as [->|Hk]; [vm_compute; reflexivity|]).
  now apply elem_of_nil in Hk.
Defined.

Lemma authUpdateInfo_updates_own_account_witness :
  fst (authUpdateInfo Office.models Office.accounts Office.alice_updates)
  = Value Sent
  /\ res_json (res (snd (authUpdateInfo Office.models Office.accounts
                           Office.alice_updates)))
     = Some (JObj [("success", JBool true);
                   ("data", Office.user_json Demo.alice)]).
Proof.
  rewrite (authUpdateInfo_updates_own_account Office.models Office.accounts
             Office.alice_updates Demo.alice eq_refl);
    [split | ..]; vm_compute; reflexivity.
Defined.

End MoreExamples.
